(** * SQLfastmcp: the query gate, the row serializer, the tool handlers and
      the JSON-RPC dispatcher of [main.py], with the row serializer of
      [database.py]

    The Python code is embedded shallowly.

    - A Python [str] is a [string] holding its UTF-8 bytes; a character
      is a lead byte with its continuation bytes.  [strip], [upper] and
      the slices act on characters as Python's do: [strip] removes the
      white space of Unicode, [upper] maps every character by the case
      mapping of the Unicode character database, which can give more than
      one character, and a slice counts characters.  [startswith] and [in]
      compare bytes, which for UTF-8 is comparing characters.
    - Python objects are values of [pyval]; a [dict] is an association list
      in insertion order, an [int] is a [Z].  Floating-point numbers,
      [Decimal] and [datetime.time] values are left out: a statement about
      every [pyval] says nothing of them.
    - The database driver, the clock, the wording of [str(e)] for a
      Starlette [HTTPException] and the interpreter's text for a function
      are not code of the repository: they are the fields of [env].
      Everything the code does to the database is recorded in the
      [db_log] of the [world], which every effectful function threads
      through.  [conn.cursor()] and the exit of the
      [with] block are taken not to raise; logging is left out.
    - Exceptions are values of [exn]; a computation returns [Raise e] or
      [Ok v], and [try_except] is Python's [try ... except Exception].  The
      messages of the interpreter's own [TypeError], [AttributeError] and
      [KeyError] follow CPython 3. *)

From Stdlib Require Import ZArith List String Ascii Bool Lia.
From Stdlib.Strings Require Import Byte.
From stdpp Require Import gmap strings pretty.

Import ListNotations.
Local Open Scope Z_scope.

(** ** Python strings *)

Module Py.

(** A [str] is a sequence of characters (code points).  In its UTF-8
    bytes a character is one byte that is no continuation byte
    ([10xxxxxx]) and the continuation bytes behind it; a lone surrogate,
    which a [str] can hold, is written with its three bytes. *)
Definition is_cont (c : ascii) : bool :=
  let n := N_of_ascii c in ((128 <=? n) && (n <? 192))%N.

Definition starts_with_cont (s : string) : bool :=
  match s with
  | EmptyString => false
  | String c _ => is_cont c
  end.

(** The characters of a string, each as its bytes. *)
Fixpoint chars (s : string) : list string :=
  match s with
  | EmptyString => []
  | String c t =>
      match chars t with
      | [] => [String c EmptyString]
      | ch :: rest =>
          if starts_with_cont ch then String c ch :: rest
          else String c EmptyString :: ch :: rest
      end
  end.

(** The string of some characters. *)
Fixpoint cat (l : list string) : string :=
  match l with
  | [] => EmptyString
  | ch :: rest => ch +:+ cat rest
  end.

(** [ord(ch)] of one character; [None] for bytes that are not the UTF-8
    form of a code point. *)
Definition ord (ch : string) : option N :=
  let cont (b : N) := ((128 <=? b) && (b <? 192))%N in
  match map N_of_ascii (list_ascii_of_string ch) with
  | [b0] => if (b0 <? 128)%N then Some b0 else None
  | [b0; b1] =>
      let cp := ((b0 - 192) * 64 + (b1 - 128))%N in
      if ((192 <=? b0) && (b0 <? 224))%N && cont b1 && (128 <=? cp)%N
      then Some cp else None
  | [b0; b1; b2] =>
      let cp := ((b0 - 224) * 4096 + (b1 - 128) * 64 + (b2 - 128))%N in
      if ((224 <=? b0) && (b0 <? 240))%N && cont b1 && cont b2 && (2048 <=? cp)%N
      then Some cp else None
  | [b0; b1; b2; b3] =>
      let cp := ((b0 - 240) * 262144 + (b1 - 128) * 4096 + (b2 - 128) * 64
                 + (b3 - 128))%N in
      if ((240 <=? b0) && (b0 <? 248))%N && cont b1 && cont b2 && cont b3
         && (65536 <=? cp)%N && (cp <? 1114112)%N
      then Some cp else None
  | _ => None
  end.

(** [chr(cp)], as its UTF-8 bytes. *)
Definition encode (cp : N) : string :=
  string_of_list_ascii
    (map ascii_of_N
       (if cp <? 128 then [cp]
        else if cp <? 2048 then [192 + cp / 64; 128 + cp mod 64]
        else if cp <? 65536
             then [224 + cp / 4096; 128 + (cp / 64) mod 64; 128 + cp mod 64]
             else [240 + cp / 262144; 128 + (cp / 4096) mod 64;
                   128 + (cp / 64) mod 64; 128 + cp mod 64])%N).

(** [s.isascii()] *)
Fixpoint isascii (s : string) : bool :=
  match s with
  | EmptyString => true
  | String c t => (N_of_ascii c <? 128)%N && isascii t
  end.

(** [ch.isspace()] for one character: the white space of ASCII (TAB, LF,
    VT, FF, CR, the separators FS, GS, RS, US and the space) and that of
    the rest of Unicode (NEL, the no-break spaces, the spaces of the
    General Punctuation block, the line and paragraph separators, the
    Ogham and the ideographic space). *)
Definition isspace (ch : string) : bool :=
  match ord ch with
  | Some n =>
      ((9 <=? n) && (n <=? 13) || (28 <=? n) && (n <=? 32)
       || (n =? 133) || (n =? 160) || (n =? 5760)
       || (8192 <=? n) && (n <=? 8202)
       || (n =? 8232) || (n =? 8233) || (n =? 8239) || (n =? 8287)
       || (n =? 12288))%N
  | None => false
  end.

Fixpoint lstrip_chars (l : list string) : list string :=
  match l with
  | [] => []
  | ch :: rest => if isspace ch then lstrip_chars rest else l
  end.

Definition is_nil {A} (l : list A) : bool :=
  match l with [] => true | _ :: _ => false end.

Fixpoint rstrip_chars (l : list string) : list string :=
  match l with
  | [] => []
  | ch :: rest =>
      let rest' := rstrip_chars rest in
      if isspace ch && is_nil rest' then [] else ch :: rest'
  end.

(** [s.lstrip()] *)
Definition lstrip (s : string) : string := cat (lstrip_chars (chars s)).

(** [s.strip()] *)
Definition strip (s : string) : string :=
  cat (rstrip_chars (lstrip_chars (chars s))).

(** The case mapping of [str.upper], from the Unicode character database
    (version 14.0, that of CPython 3.11).  A character with one uppercase
    character is in a range [(first, last, step, target)]: the code points
    [first], [first + step], ... up to [last] go to [target],
    [target + step], ...  A character with more than one is in
    [upper_special].  Every other character is left as it is. *)
Definition upper_ranges : list (N * N * N * N) :=
  [
   (97, 122, 1, 65); (181, 181, 1, 924); (224, 246, 1, 192);
   (248, 254, 1, 216); (255, 255, 1, 376); (257, 303, 2, 256);
   (305, 305, 1, 73); (307, 311, 2, 306); (314, 328, 2, 313);
   (331, 375, 2, 330); (378, 382, 2, 377); (383, 383, 1, 83);
   (384, 384, 1, 579); (387, 389, 2, 386); (392, 392, 1, 391);
   (396, 396, 1, 395); (402, 402, 1, 401); (405, 405, 1, 502);
   (409, 409, 1, 408); (410, 410, 1, 573); (414, 414, 1, 544);
   (417, 421, 2, 416); (424, 424, 1, 423); (429, 429, 1, 428);
   (432, 432, 1, 431); (436, 438, 2, 435); (441, 441, 1, 440);
   (445, 445, 1, 444); (447, 447, 1, 503); (453, 453, 1, 452);
   (454, 454, 1, 452); (456, 456, 1, 455); (457, 457, 1, 455);
   (459, 459, 1, 458); (460, 460, 1, 458); (462, 476, 2, 461);
   (477, 477, 1, 398); (479, 495, 2, 478); (498, 498, 1, 497);
   (499, 499, 1, 497); (501, 501, 1, 500); (505, 543, 2, 504);
   (547, 563, 2, 546); (572, 572, 1, 571); (575, 576, 1, 11390);
   (578, 578, 1, 577); (583, 591, 2, 582); (592, 592, 1, 11375);
   (593, 593, 1, 11373); (594, 594, 1, 11376); (595, 595, 1, 385);
   (596, 596, 1, 390); (598, 599, 1, 393); (601, 601, 1, 399);
   (603, 603, 1, 400); (604, 604, 1, 42923); (608, 608, 1, 403);
   (609, 609, 1, 42924); (611, 611, 1, 404); (613, 613, 1, 42893);
   (614, 614, 1, 42922); (616, 616, 1, 407); (617, 617, 1, 406);
   (618, 618, 1, 42926); (619, 619, 1, 11362); (620, 620, 1, 42925);
   (623, 623, 1, 412); (625, 625, 1, 11374); (626, 626, 1, 413);
   (629, 629, 1, 415); (637, 637, 1, 11364); (640, 640, 1, 422);
   (642, 642, 1, 42949); (643, 643, 1, 425); (647, 647, 1, 42929);
   (648, 648, 1, 430); (649, 649, 1, 580); (650, 651, 1, 433);
   (652, 652, 1, 581); (658, 658, 1, 439); (669, 669, 1, 42930);
   (670, 670, 1, 42928); (837, 837, 1, 921); (881, 883, 2, 880);
   (887, 887, 1, 886); (891, 893, 1, 1021); (940, 940, 1, 902);
   (941, 943, 1, 904); (945, 961, 1, 913); (962, 962, 1, 931);
   (963, 971, 1, 931); (972, 972, 1, 908); (973, 974, 1, 910);
   (976, 976, 1, 914); (977, 977, 1, 920); (981, 981, 1, 934);
   (982, 982, 1, 928); (983, 983, 1, 975); (985, 1007, 2, 984);
   (1008, 1008, 1, 922); (1009, 1009, 1, 929); (1010, 1010, 1, 1017);
   (1011, 1011, 1, 895); (1013, 1013, 1, 917); (1016, 1016, 1, 1015);
   (1019, 1019, 1, 1018); (1072, 1103, 1, 1040); (1104, 1119, 1, 1024);
   (1121, 1153, 2, 1120); (1163, 1215, 2, 1162); (1218, 1230, 2, 1217);
   (1231, 1231, 1, 1216); (1233, 1327, 2, 1232); (1377, 1414, 1, 1329);
   (4304, 4346, 1, 7312); (4349, 4351, 1, 7357); (5112, 5117, 1, 5104);
   (7296, 7296, 1, 1042); (7297, 7297, 1, 1044); (7298, 7298, 1, 1054);
   (7299, 7300, 1, 1057); (7301, 7301, 1, 1058); (7302, 7302, 1, 1066);
   (7303, 7303, 1, 1122); (7304, 7304, 1, 42570); (7545, 7545, 1, 42877);
   (7549, 7549, 1, 11363); (7566, 7566, 1, 42950); (7681, 7829, 2, 7680);
   (7835, 7835, 1, 7776); (7841, 7935, 2, 7840); (7936, 7943, 1, 7944);
   (7952, 7957, 1, 7960); (7968, 7975, 1, 7976); (7984, 7991, 1, 7992);
   (8000, 8005, 1, 8008); (8017, 8023, 2, 8025); (8032, 8039, 1, 8040);
   (8048, 8049, 1, 8122); (8050, 8053, 1, 8136); (8054, 8055, 1, 8154);
   (8056, 8057, 1, 8184); (8058, 8059, 1, 8170); (8060, 8061, 1, 8186);
   (8112, 8113, 1, 8120); (8126, 8126, 1, 921); (8144, 8145, 1, 8152);
   (8160, 8161, 1, 8168); (8165, 8165, 1, 8172); (8526, 8526, 1, 8498);
   (8560, 8575, 1, 8544); (8580, 8580, 1, 8579); (9424, 9449, 1, 9398);
   (11312, 11359, 1, 11264); (11361, 11361, 1, 11360);
   (11365, 11365, 1, 570); (11366, 11366, 1, 574); (11368, 11372, 2, 11367);
   (11379, 11379, 1, 11378); (11382, 11382, 1, 11381);
   (11393, 11491, 2, 11392); (11500, 11502, 2, 11499);
   (11507, 11507, 1, 11506); (11520, 11557, 1, 4256);
   (11559, 11559, 1, 4295); (11565, 11565, 1, 4301);
   (42561, 42605, 2, 42560); (42625, 42651, 2, 42624);
   (42787, 42799, 2, 42786); (42803, 42863, 2, 42802);
   (42874, 42876, 2, 42873); (42879, 42887, 2, 42878);
   (42892, 42892, 1, 42891); (42897, 42899, 2, 42896);
   (42900, 42900, 1, 42948); (42903, 42921, 2, 42902);
   (42933, 42947, 2, 42932); (42952, 42954, 2, 42951);
   (42961, 42961, 1, 42960); (42967, 42969, 2, 42966);
   (42998, 42998, 1, 42997); (43859, 43859, 1, 42931);
   (43888, 43967, 1, 5024); (65345, 65370, 1, 65313);
   (66600, 66639, 1, 66560); (66776, 66811, 1, 66736);
   (66967, 66977, 1, 66928); (66979, 66993, 1, 66940);
   (66995, 67001, 1, 66956); (67003, 67004, 1, 66964);
   (68800, 68850, 1, 68736); (71872, 71903, 1, 71840);
   (93792, 93823, 1, 93760); (125218, 125251, 1, 125184)
  ]%N.

Definition upper_special : list (N * list N) :=
  [
   (223, [83; 83]); (329, [700; 78]); (496, [74; 780]);
   (912, [921; 776; 769]); (944, [933; 776; 769]); (1415, [1333; 1362]);
   (7830, [72; 817]); (7831, [84; 776]); (7832, [87; 778]);
   (7833, [89; 778]); (7834, [65; 702]); (8016, [933; 787]);
   (8018, [933; 787; 768]); (8020, [933; 787; 769]); (8022, [933; 787; 834]);
   (8064, [7944; 921]); (8065, [7945; 921]); (8066, [7946; 921]);
   (8067, [7947; 921]); (8068, [7948; 921]); (8069, [7949; 921]);
   (8070, [7950; 921]); (8071, [7951; 921]); (8072, [7944; 921]);
   (8073, [7945; 921]); (8074, [7946; 921]); (8075, [7947; 921]);
   (8076, [7948; 921]); (8077, [7949; 921]); (8078, [7950; 921]);
   (8079, [7951; 921]); (8080, [7976; 921]); (8081, [7977; 921]);
   (8082, [7978; 921]); (8083, [7979; 921]); (8084, [7980; 921]);
   (8085, [7981; 921]); (8086, [7982; 921]); (8087, [7983; 921]);
   (8088, [7976; 921]); (8089, [7977; 921]); (8090, [7978; 921]);
   (8091, [7979; 921]); (8092, [7980; 921]); (8093, [7981; 921]);
   (8094, [7982; 921]); (8095, [7983; 921]); (8096, [8040; 921]);
   (8097, [8041; 921]); (8098, [8042; 921]); (8099, [8043; 921]);
   (8100, [8044; 921]); (8101, [8045; 921]); (8102, [8046; 921]);
   (8103, [8047; 921]); (8104, [8040; 921]); (8105, [8041; 921]);
   (8106, [8042; 921]); (8107, [8043; 921]); (8108, [8044; 921]);
   (8109, [8045; 921]); (8110, [8046; 921]); (8111, [8047; 921]);
   (8114, [8122; 921]); (8115, [913; 921]); (8116, [902; 921]);
   (8118, [913; 834]); (8119, [913; 834; 921]); (8124, [913; 921]);
   (8130, [8138; 921]); (8131, [919; 921]); (8132, [905; 921]);
   (8134, [919; 834]); (8135, [919; 834; 921]); (8140, [919; 921]);
   (8146, [921; 776; 768]); (8147, [921; 776; 769]); (8150, [921; 834]);
   (8151, [921; 776; 834]); (8162, [933; 776; 768]); (8163, [933; 776; 769]);
   (8164, [929; 787]); (8166, [933; 834]); (8167, [933; 776; 834]);
   (8178, [8186; 921]); (8179, [937; 921]); (8180, [911; 921]);
   (8182, [937; 834]); (8183, [937; 834; 921]); (8188, [937; 921]);
   (64256, [70; 70]); (64257, [70; 73]); (64258, [70; 76]);
   (64259, [70; 70; 73]); (64260, [70; 70; 76]); (64261, [83; 84]);
   (64262, [83; 84]); (64275, [1348; 1350]); (64276, [1348; 1333]);
   (64277, [1348; 1339]); (64278, [1358; 1350]); (64279, [1348; 1341])
  ]%N.

(** The uppercase characters of one code point. *)
Definition upper_cp (cp : N) : list N :=
  match find (fun e => (fst e =? cp)%N) upper_special with
  | Some (_, l) => l
  | None =>
      match find (fun '(first, last, step, _) =>
                    ((first <=? cp) && (cp <=? last)
                     && ((cp - first) mod step =? 0))%N) upper_ranges with
      | Some (first, _, _, target) => [(target + (cp - first))%N]
      | None => [cp]
      end
  end.

Definition upper_char (ch : string) : string :=
  match ord ch with
  | Some cp => cat (map encode (upper_cp cp))
  | None => ch
  end.

(** [s.upper()] *)
Definition upper (s : string) : string := cat (map upper_char (chars s)).

Definition is_empty (s : string) : bool :=
  match s with EmptyString => true | String _ _ => false end.

(** [s.startswith(p)]: the bytes of [p] begin those of [s]. *)
Fixpoint startswith (s p : string) {struct p} : bool :=
  match p with
  | EmptyString => true
  | String a p' =>
      match s with
      | EmptyString => false
      | String b s' => if Ascii.eqb a b then startswith s' p' else false
      end
  end.

(** [p in s] *)
Fixpoint contains (p s : string) : bool :=
  match s with
  | EmptyString => startswith s p
  | String _ t => startswith s p || contains p t
  end.

(** [s[n:]] for [n >= 0]: without its first [n] characters. *)
Definition slice_from (n : nat) (s : string) : string := cat (drop n (chars s)).

(** [s[:n]] for [n >= 0]: its first [n] characters. *)
Definition slice_to (n : nat) (s : string) : string := cat (take n (chars s)).

(** [sep.join(l)] *)
Fixpoint join (sep : string) (l : list string) : string :=
  match l with
  | [] => EmptyString
  | [x] => x
  | x :: rest => x +:+ sep +:+ join sep rest
  end.

End Py.

(** The same operations byte by byte, as they act on ASCII text; the
    statements about ASCII queries are proved through them. *)
Module Bytewise.

(** The characters of an ASCII text: its bytes. *)
Fixpoint singles (s : string) : list string :=
  match s with
  | EmptyString => []
  | String c t => String c EmptyString :: singles t
  end.

Definition isspace (c : ascii) : bool :=
  let n := N_of_ascii c in
  ((9 <=? n) && (n <=? 13) || (28 <=? n) && (n <=? 32))%N.

Fixpoint lstrip (s : string) : string :=
  match s with
  | EmptyString => EmptyString
  | String c t => if isspace c then lstrip t else s
  end.

Fixpoint rstrip (s : string) : string :=
  match s with
  | EmptyString => EmptyString
  | String c t =>
      let t' := rstrip t in
      if isspace c && Py.is_empty t' then EmptyString else String c t'
  end.

Definition strip (s : string) : string := rstrip (lstrip s).

Definition upper_char (c : ascii) : ascii :=
  let n := N_of_ascii c in
  if ((97 <=? n) && (n <=? 122))%N then ascii_of_N (n - 32) else c.

Fixpoint upper (s : string) : string :=
  match s with
  | EmptyString => EmptyString
  | String c t => String (upper_char c) (upper t)
  end.

Fixpoint slice_from (n : nat) (s : string) : string :=
  match n, s with
  | O, _ => s
  | S _, EmptyString => EmptyString
  | S n', String _ t => slice_from n' t
  end.

Fixpoint slice_to (n : nat) (s : string) : string :=
  match n, s with
  | O, _ => EmptyString
  | S _, EmptyString => EmptyString
  | S n', String c t => String c (slice_to n' t)
  end.

End Bytewise.

(** ** Python values *)

(** A naive [datetime.date] ([dt_time = None]) or [datetime.datetime]
    (hour, minute, second, microsecond). *)
Record datetime := mk_datetime {
  dt_year : Z; dt_month : Z; dt_day : Z;
  dt_time : option (Z * Z * Z * Z)
}.

#[warnings="-register-all"]
Inductive pyval :=
| PNone
| PBool (b : bool)
| PInt (z : Z)
| PStr (s : string)
| PBytes (b : list byte)
| PDateTime (d : datetime)
| PList (l : list pyval)
| PDict (d : list (string * pyval)).

(** The name Python prints for the type of a value. *)
Definition type_name (v : pyval) : string :=
  match v with
  | PNone => "NoneType"
  | PBool _ => "bool"
  | PInt _ => "int"
  | PStr _ => "str"
  | PBytes _ => "bytes"
  | PDateTime d => match dt_time d with
                   | None => "datetime.date"
                   | Some _ => "datetime.datetime"
                   end
  | PList _ => "list"
  | PDict _ => "dict"
  end.

(** Truth value of an object, as [if x:] tests it. *)
Definition truthy (v : pyval) : bool :=
  match v with
  | PNone => false
  | PBool b => b
  | PInt z => negb (z =? 0)
  | PStr s => negb (Py.is_empty s)
  | PBytes b => match b with [] => false | _ => true end
  | PDateTime _ => true
  | PList l => match l with [] => false | _ => true end
  | PDict d => match d with [] => false | _ => true end
  end.

(** *** Dictionaries: association lists in insertion order *)

Fixpoint dict_get {A} (k : string) (d : list (string * A)) : option A :=
  match d with
  | [] => None
  | (k', v) :: rest => if String.eqb k k' then Some v else dict_get k rest
  end.

(** [d[k] = v]: an existing key keeps its place. *)
Fixpoint dict_set {A} (k : string) (v : A) (d : list (string * A)) : list (string * A) :=
  match d with
  | [] => [(k, v)]
  | (k', v') :: rest =>
      if String.eqb k k' then (k', v) :: rest else (k', v') :: dict_set k v rest
  end.

Definition dict_has {A} (k : string) (d : list (string * A)) : bool :=
  match dict_get k d with Some _ => true | None => false end.

(** *** Formatting *)

Definition dquote : ascii := ascii_of_N 34.
Definition squote : ascii := ascii_of_N 39.
Definition backslash : ascii := ascii_of_N 92.
Definition newline : ascii := ascii_of_N 10.

Definition chr (c : ascii) : string := String c EmptyString.

Definition hex_digit (n : N) : ascii :=
  if (n <? 10)%N then ascii_of_N (48 + n) else ascii_of_N (87 + n).

Definition hex2 (n : N) : string :=
  String (hex_digit (n / 16)) (chr (hex_digit (n mod 16))).

Definition hex4 (n : N) : string := hex2 (n / 256 mod 256) +:+ hex2 (n mod 256).

(** [str(z)] for an integer. *)
Definition str_int (z : Z) : string := pretty z.

Fixpoint zeros (n : nat) : string :=
  match n with O => EmptyString | S n' => String "0" (zeros n') end.

(** ["%0wd" % z] for [z >= 0]. *)
Definition zero_pad (w : nat) (z : Z) : string :=
  let s := str_int z in zeros (w - String.length s) +:+ s.

Definition iso_date (d : datetime) : string :=
  zero_pad 4 (dt_year d) +:+ "-" +:+ zero_pad 2 (dt_month d) +:+ "-"
  +:+ zero_pad 2 (dt_day d).

Definition iso_time (t : Z * Z * Z * Z) : string :=
  let '(h, m, s, us) := t in
  zero_pad 2 h +:+ ":" +:+ zero_pad 2 m +:+ ":" +:+ zero_pad 2 s
  +:+ (if us =? 0 then EmptyString else "." +:+ zero_pad 6 us).

(** [d.isoformat(sep)] *)
Definition isoformat_sep (sep : string) (d : datetime) : string :=
  match dt_time d with
  | None => iso_date d
  | Some t => iso_date d +:+ sep +:+ iso_time t
  end.

(** [d.isoformat()] *)
Definition isoformat (d : datetime) : string := isoformat_sep "T" d.

(** One character of [repr] of a [str] or [bytes] delimited by [q]. *)
Definition repr_char (q c : ascii) : string :=
  let n := N_of_ascii c in
  if Ascii.eqb c backslash then String backslash (chr backslash)
  else if Ascii.eqb c q then String backslash (chr q)
  else if (n =? 10)%N then String backslash "n"
  else if (n =? 13)%N then String backslash "r"
  else if (n =? 9)%N then String backslash "t"
  else if ((n <? 32) || (n =? 127))%N then String backslash ("x" +:+ hex2 n)
  else chr c.

Fixpoint repr_chars (q : ascii) (s : string) : string :=
  match s with
  | EmptyString => EmptyString
  | String c t => repr_char q c +:+ repr_chars q t
  end.

(** [repr(s)]: single quotes unless the text has a single quote and no
    double quote. *)
Definition repr_str (s : string) : string :=
  let q := if Py.contains (chr squote) s && negb (Py.contains (chr dquote) s)
           then dquote else squote in
  chr q +:+ repr_chars q s +:+ chr q.

Definition repr_byte (b : byte) : string :=
  let n := Byte.to_N b in
  if (128 <=? n)%N then String backslash ("x" +:+ hex2 n)
  else repr_char squote (ascii_of_N n).

Definition repr_bytes (b : list byte) : string :=
  "b" +:+ chr squote +:+ Py.join EmptyString (map repr_byte b) +:+ chr squote.

Definition repr_datetime (d : datetime) : string :=
  match dt_time d with
  | None => "datetime.date(" +:+ str_int (dt_year d) +:+ ", "
            +:+ str_int (dt_month d) +:+ ", " +:+ str_int (dt_day d) +:+ ")"
  | Some (h, m, s, us) =>
      "datetime.datetime(" +:+ str_int (dt_year d) +:+ ", "
      +:+ str_int (dt_month d) +:+ ", " +:+ str_int (dt_day d) +:+ ", "
      +:+ str_int h +:+ ", " +:+ str_int m
      +:+ (if (s =? 0) && (us =? 0) then EmptyString else ", " +:+ str_int s)
      +:+ (if us =? 0 then EmptyString else ", " +:+ str_int us) +:+ ")"
  end.

(** [repr(v)] *)
Fixpoint py_repr (v : pyval) : string :=
  match v with
  | PNone => "None"
  | PBool true => "True"
  | PBool false => "False"
  | PInt z => str_int z
  | PStr s => repr_str s
  | PBytes b => repr_bytes b
  | PDateTime d => repr_datetime d
  | PList l => "[" +:+ Py.join ", " (map py_repr l) +:+ "]"
  | PDict d =>
      "{" +:+ Py.join ", "
                (map (fun kv => repr_str (fst kv) +:+ ": " +:+ py_repr (snd kv)) d)
      +:+ "}"
  end.

(** [str(v)], which is also what an f-string puts for [{v}]. *)
Definition py_str (v : pyval) : string :=
  match v with
  | PStr s => s
  | PDateTime d => isoformat_sep " " d
  | _ => py_repr v
  end.

(** ** Exceptions and results *)

Inductive exn :=
| TypeError (msg : string)
| AttributeError (msg : string)
| KeyError (key : string)
| IndexError (msg : string)
| ValueError (msg : string)
| DriverError (msg : string)                  (* pyodbc.Error; [msg] is its [str] *)
| HTTPException (status : Z) (detail : string).

Inductive result (A : Type) :=
| Ok (a : A)
| Raise (e : exn).
Arguments Ok {A} a.
Arguments Raise {A} e.

(** ** UTF-8 *)

Definition is_cont (b : N) : bool := ((128 <=? b) && (b <=? 191))%N.

(** The strict decoder of [bytes.decode('utf-8')]: shortest forms only, no
    surrogates, nothing above U+10FFFF.  [None] is [UnicodeDecodeError]. *)
Fixpoint utf8_decode (bs : list N) : option (list N) :=
  match bs with
  | [] => Some []
  | b0 :: t0 =>
      if (b0 <? 128)%N then cons b0 <$> utf8_decode t0
      else if ((194 <=? b0) && (b0 <=? 223))%N then
        match t0 with
        | b1 :: t1 =>
            if is_cont b1
            then cons ((b0 - 192) * 64 + (b1 - 128))%N <$> utf8_decode t1
            else None
        | _ => None
        end
      else if ((224 <=? b0) && (b0 <=? 239))%N then
        match t0 with
        | b1 :: b2 :: t2 =>
            let cp := ((b0 - 224) * 4096 + (b1 - 128) * 64 + (b2 - 128))%N in
            if is_cont b1 && is_cont b2 && (2048 <=? cp)%N
               && negb ((55296 <=? cp) && (cp <=? 57343))%N
            then cons cp <$> utf8_decode t2
            else None
        | _ => None
        end
      else if ((240 <=? b0) && (b0 <=? 244))%N then
        match t0 with
        | b1 :: b2 :: b3 :: t3 =>
            let cp := ((b0 - 240) * 262144 + (b1 - 128) * 4096
                       + (b2 - 128) * 64 + (b3 - 128))%N in
            if is_cont b1 && is_cont b2 && is_cont b3
               && (65536 <=? cp)%N && (cp <=? 1114111)%N
            then cons cp <$> utf8_decode t3
            else None
        | _ => None
        end
      else None
  end.

(** [b.decode('utf-8')]: the text keeps the bytes, which are its UTF-8
    form. *)
Definition bytes_decode_utf8 (b : list byte) : option string :=
  match utf8_decode (map Byte.to_N b) with
  | Some _ => Some (string_of_list_byte b)
  | None => None
  end.

(** The code points of a text; a byte that starts no UTF-8 sequence counts
    as itself. *)
Definition code_points (s : string) : list N :=
  let bs := map Byte.to_N (list_byte_of_string s) in
  match utf8_decode bs with
  | Some cps => cps
  | None => bs
  end.

(** ** [json.dumps(v, indent=2)] *)

Definition json_escape_cp (n : N) : string :=
  if (n =? 34)%N then String backslash (chr dquote)
  else if (n =? 92)%N then String backslash (chr backslash)
  else if (n =? 10)%N then String backslash "n"
  else if (n =? 13)%N then String backslash "r"
  else if (n =? 9)%N then String backslash "t"
  else if (n =? 8)%N then String backslash "b"
  else if (n =? 12)%N then String backslash "f"
  else if ((32 <=? n) && (n <=? 126))%N then chr (ascii_of_N n)
  else if (n <? 65536)%N then String backslash ("u" +:+ hex4 n)
  else
    let v := (n - 65536)%N in
    String backslash ("u" +:+ hex4 (55296 + v / 1024))
    +:+ String backslash ("u" +:+ hex4 (56320 + v mod 1024)).

Definition json_string (s : string) : string :=
  chr dquote +:+ Py.join EmptyString (map json_escape_cp (code_points s))
  +:+ chr dquote.

Fixpoint spaces (n : nat) : string :=
  match n with O => EmptyString | S n' => String " " (spaces n') end.

Definition newline_indent (level : nat) : string :=
  String newline (spaces (2 * level)).

Definition not_serializable (v : pyval) : exn :=
  TypeError ("Object of type " +:+
             match v with
             | PDateTime d => match dt_time d with
                              | None => "date" | Some _ => "datetime" end
             | _ => type_name v
             end +:+ " is not JSON serializable").

Fixpoint json_encode (level : nat) (v : pyval) : result string :=
  match v with
  | PNone => Ok "null"
  | PBool true => Ok "true"
  | PBool false => Ok "false"
  | PInt z => Ok (str_int z)
  | PStr s => Ok (json_string s)
  | PBytes _ | PDateTime _ => Raise (not_serializable v)
  | PList [] => Ok "[]"
  | PList l =>
      match (fix items (l : list pyval) : result (list string) :=
               match l with
               | [] => Ok []
               | x :: r =>
                   match json_encode (S level) x with
                   | Raise e => Raise e
                   | Ok s => match items r with
                             | Raise e => Raise e
                             | Ok ss => Ok (s :: ss)
                             end
                   end
               end) l with
      | Raise e => Raise e
      | Ok ss => Ok ("[" +:+ newline_indent (S level)
                     +:+ Py.join ("," +:+ newline_indent (S level)) ss
                     +:+ newline_indent level +:+ "]")
      end
  | PDict [] => Ok "{}"
  | PDict d =>
      match (fix items (d : list (string * pyval)) : result (list string) :=
               match d with
               | [] => Ok []
               | (k, x) :: r =>
                   match json_encode (S level) x with
                   | Raise e => Raise e
                   | Ok s => match items r with
                             | Raise e => Raise e
                             | Ok ss => Ok ((json_string k +:+ ": " +:+ s) :: ss)
                             end
                   end
               end) d with
      | Raise e => Raise e
      | Ok ss => Ok ("{" +:+ newline_indent (S level)
                     +:+ Py.join ("," +:+ newline_indent (S level)) ss
                     +:+ newline_indent level +:+ "}")
      end
  end.

Definition json_dumps (v : pyval) : result string := json_encode 0 v.

(** ** The outside world *)

(** What the code does to the database, in order. *)
Inductive db_event :=
| EvConnect                                       (* pyodbc.connect(...) *)
| EvExecute (sql : string) (params : list pyval)  (* cursor.execute(sql[, params]) *)
| EvFetchAll                                      (* cursor.fetchall() *)
| EvExit (clean : bool).                          (* the end of [with ... as conn] *)

(** A cursor after [execute]: the column names of [cursor.description]
    ([None] when the statement has no result set) and what [fetchall]
    does. *)
Record cursor := mk_cursor {
  description : option (list string);
  fetchall : result (list (list pyval))
}.

(** The parts that are not code of the repository.  The driver answers
    from what has been done to it so far.  [function_str] is how the
    interpreter prints a function in the [TypeError] of a call with [**]
    of something that is no mapping: [name()] before CPython 3.9,
    [module.name()] since, the module being the one the file is loaded
    as. *)
Record env := mk_env {
  drv_connect : list db_event -> option exn;
  drv_execute : list db_event -> string -> list pyval -> result cursor;
  clock : nat -> datetime;
  http_exception_str : Z -> string -> string;
  function_str : string -> string
}.

Record world := mk_world {
  db_log : list db_event;
  clock_reads : nat
}.

Definition M (A : Type) : Type := world -> result A * world.

Definition ret {A} (a : A) : M A := fun w => (Ok a, w).

Definition raise {A} (e : exn) : M A := fun w => (Raise e, w).

Definition bind {A B} (m : M A) (k : A -> M B) : M B :=
  fun w => match m w with
           | (Ok a, w') => k a w'
           | (Raise e, w') => (Raise e, w')
           end.

(** [try: m except Exception as e: h e] *)
Definition try_except {A} (m : M A) (h : exn -> M A) : M A :=
  fun w => match m w with
           | (Ok a, w') => (Ok a, w')
           | (Raise e, w') => h e w'
           end.

Definition lift {A} (r : result A) : M A := fun w => (r, w).

Definition emit (ev : db_event) : M unit :=
  fun w => (Ok tt, mk_world (db_log w ++ [ev]) (clock_reads w)).

Notation "'let*' x := m 'in' k" := (bind m (fun x => k))
  (at level 10, x name, m at level 100, k at level 200).

Module Main.
Section WithEnv.

Variable E : env.

(** [str(e)] *)
Definition str_exn (e : exn) : string :=
  match e with
  | TypeError m | AttributeError m | IndexError m | ValueError m
  | DriverError m => m
  | KeyError k => repr_str k
  | HTTPException st d => http_exception_str E st d
  end.

(** [datetime.now().isoformat()] *)
Definition now_isoformat : M string :=
  fun w => (Ok (isoformat (clock E (clock_reads w))),
            mk_world (db_log w) (S (clock_reads w))).

(** *** [DatabaseManager] *)

Definition get_connection : M unit :=
  fun w =>
    let w' := mk_world (db_log w ++ [EvConnect]) (clock_reads w) in
    match drv_connect E (db_log w) with
    | None => (Ok tt, w')
    | Some e =>
        (Raise (HTTPException 400 ("Database connection failed: " +:+ str_exn e)), w')
    end.

Definition cursor_execute (query : string) (params : list pyval) : M cursor :=
  fun w =>
    (drv_execute E (db_log w) query params,
     mk_world (db_log w ++ [EvExecute query params]) (clock_reads w)).

Definition cursor_fetchall (c : cursor) : M (list (list pyval)) :=
  let* _ := emit EvFetchAll in lift (fetchall c).

(** Leaving [with ... as conn:], normally or by an exception. *)
Definition with_connection {A} (body : M A) : M A :=
  let* _ := get_connection in
  fun w => match body w with
           | (r, w') =>
               (r, mk_world (db_log w' ++ [EvExit match r with Ok _ => true | Raise _ => false end])
                            (clock_reads w'))
           end.

(** The value stored for one column of a row (lines 98-101). *)
Definition serialize_value (value : pyval) : pyval :=
  match value with
  | PDateTime d => PStr (isoformat d)
  | _ => value
  end.

(** The loop [for i, value in enumerate(row)] from index [i] on. *)
Fixpoint serialize_row (columns : list string) (i : nat) (row : list pyval)
    (row_dict : list (string * pyval)) : result (list (string * pyval)) :=
  match row with
  | [] => Ok row_dict
  | value :: rest =>
      match nth_error columns i with
      | None => Raise (IndexError "list index out of range")
      | Some c => serialize_row columns (S i) rest (dict_set c (serialize_value value) row_dict)
      end
  end.

Fixpoint serialize_rows (columns : list string) (fetched : list (list pyval))
    : result (list (list (string * pyval))) :=
  match fetched with
  | [] => Ok []
  | row :: rest =>
      match serialize_row columns 0 row [] with
      | Raise e => Raise e
      | Ok d => match serialize_rows columns rest with
                | Raise e => Raise e
                | Ok ds => Ok (d :: ds)
                end
      end
  end.

(** [db_manager.execute_query(query, params)]; no parameters is [[]]. *)
Definition execute_query (query : string) (params : list pyval)
    : M (list (list (string * pyval))) :=
  with_connection
    (try_except
       (let* c := cursor_execute query params in
        let columns := match description c with Some cols => cols | None => [] end in
        let* fetched := cursor_fetchall c in
        lift (serialize_rows columns fetched))
       (fun e => raise (HTTPException 400 ("Query execution failed: " +:+ str_exn e)))).

Definition rows_value (rows : list (list (string * pyval))) : pyval :=
  PList (map PDict rows).

Definition len_value {A} (l : list A) : pyval := PInt (Z.of_nat (length l)).

(** *** The tools *)

(** [AttributeError] for [v.name] on a value without that attribute. *)
Definition no_attribute (v : pyval) (name : string) : exn :=
  AttributeError (chr squote +:+ type_name v +:+ "' object has no attribute '"
                  +:+ name +:+ "'").

(** [v > n] for an integer [n]. *)
Definition py_gt_int (v : pyval) (n : Z) : result bool :=
  match v with
  | PInt z => Ok (n <? z)
  | PBool b => Ok (n <? (if b then 1 else 0))
  | _ => Raise (TypeError ("'>' not supported between instances of '"
                           +:+ type_name v +:+ "' and 'int'"))
  end.

Definition only_select_message : string :=
  "Only SELECT queries are allowed for security reasons".

(** Lines 140-147: the text handed to [execute_query]. *)
Definition apply_row_limit (query : string) (query_upper : string) (limit : pyval)
    : result string :=
  if negb (Py.contains "LIMIT" query_upper) && negb (Py.contains "TOP" query_upper) then
    match py_gt_int limit 1000 with
    | Raise e => Raise e
    | Ok over =>
        let limit := if over then PInt 1000 else limit in
        let query := Py.strip query in
        if Py.startswith query_upper "SELECT DISTINCT"
        then Ok ("SELECT DISTINCT TOP " +:+ py_str limit +:+ " " +:+ Py.slice_from 15 query)
        else Ok ("SELECT TOP " +:+ py_str limit +:+ " " +:+ Py.slice_from 6 query)
    end
  else Ok query.

Definition query_database_tool (query limit : pyval) : M pyval :=
  match query with
  | PStr q =>
      let query_upper := Py.upper (Py.strip q) in
      if negb (Py.startswith query_upper "SELECT") then
        ret (PDict [("error", PStr only_select_message); ("query", query)])
      else
        let* query := lift (apply_row_limit q query_upper limit) in
        try_except
          (let* results := execute_query query [] in
           let* timestamp := now_isoformat in
           ret (PDict [("success", PBool true);
                       ("results", rows_value results);
                       ("row_count", len_value results);
                       ("query", PStr query);
                       ("timestamp", PStr timestamp)]))
          (fun e =>
             let* timestamp := now_isoformat in
             ret (PDict [("success", PBool false);
                         ("error", PStr (str_exn e));
                         ("query", PStr query);
                         ("timestamp", PStr timestamp)]))
  | PBytes _ =>
      (* bytes has strip and upper; startswith then gets a str *)
      raise (TypeError "startswith first arg must be bytes or a tuple of bytes, not str")
  | _ => raise (no_attribute query "strip")
  end.

Definition unlines (l : list string) : string := Py.join (chr newline) l.

Definition tables_query : string :=
  unlines [ EmptyString;
            "        SELECT TABLE_NAME ";
            "        FROM INFORMATION_SCHEMA.TABLES ";
            "        WHERE TABLE_TYPE = 'BASE TABLE'";
            "        ORDER BY TABLE_NAME";
            "        " ].

Definition columns_query : string :=
  unlines [ EmptyString;
            "        SELECT ";
            "            COLUMN_NAME,";
            "            DATA_TYPE,";
            "            IS_NULLABLE,";
            "            COLUMN_DEFAULT,";
            "            CHARACTER_MAXIMUM_LENGTH";
            "        FROM INFORMATION_SCHEMA.COLUMNS ";
            "        WHERE TABLE_NAME = ?";
            "        ORDER BY ORDINAL_POSITION";
            "        " ].

(** [row[k]] on a row dictionary *)
Definition row_item (k : string) (row : list (string * pyval)) : result pyval :=
  match dict_get k row with
  | Some v => Ok v
  | None => Raise (KeyError k)
  end.

(** [[row[k] for row in results]] *)
Fixpoint column_of (k : string) (results : list (list (string * pyval)))
    : result (list pyval) :=
  match results with
  | [] => Ok []
  | row :: rest =>
      match row_item k row with
      | Raise e => Raise e
      | Ok v => match column_of k rest with
                | Raise e => Raise e
                | Ok vs => Ok (v :: vs)
                end
      end
  end.

Definition list_tables_tool : M pyval :=
  try_except
    (let* results := execute_query tables_query [] in
     let* tables := lift (column_of "TABLE_NAME" results) in
     let* timestamp := now_isoformat in
     ret (PDict [("success", PBool true);
                 ("tables", PList tables);
                 ("table_count", len_value tables);
                 ("timestamp", PStr timestamp)]))
    (fun e =>
       let* timestamp := now_isoformat in
       ret (PDict [("success", PBool false);
                   ("error", PStr (str_exn e));
                   ("timestamp", PStr timestamp)])).

Definition describe_table_tool (table_name : pyval) : M pyval :=
  try_except
    (let* schema := execute_query columns_query [table_name] in
     let* timestamp := now_isoformat in
     ret (PDict [("success", PBool true);
                 ("table_name", table_name);
                 ("columns", rows_value schema);
                 ("column_count", len_value schema);
                 ("timestamp", PStr timestamp)]))
    (fun e =>
       let* timestamp := now_isoformat in
       ret (PDict [("success", PBool false);
                   ("error", PStr (str_exn e));
                   ("table_name", table_name);
                   ("timestamp", PStr timestamp)])).

(** [res[0][k] if res else "Unknown"] *)
Definition first_or_unknown (k : string) (res : list (list (string * pyval)))
    : result pyval :=
  match res with
  | [] => Ok (PStr "Unknown")
  | row :: _ => row_item k row
  end.

Definition get_database_info_tool : M pyval :=
  try_except
    (let* version_result := execute_query "SELECT @@VERSION as version" [] in
     let* db_name_result := execute_query "SELECT DB_NAME() as database_name" [] in
     let* server_name_result := execute_query "SELECT @@SERVERNAME as server_name" [] in
     let* table_results := execute_query tables_query [] in
     let* database_name := lift (first_or_unknown "database_name" db_name_result) in
     let* server_name := lift (first_or_unknown "server_name" server_name_result) in
     let* version := lift (first_or_unknown "version" version_result) in
     let* timestamp := now_isoformat in
     ret (PDict [("success", PBool true);
                 ("database_name", database_name);
                 ("server_name", server_name);
                 ("version", version);
                 ("table_count", len_value table_results);
                 ("timestamp", PStr timestamp)]))
    (fun e =>
       let* timestamp := now_isoformat in
       ret (PDict [("success", PBool false);
                   ("error", PStr (str_exn e));
                   ("timestamp", PStr timestamp)])).

(** [parameters.items()] *)
Definition py_items (v : pyval) : result (list (string * pyval)) :=
  match v with
  | PDict d => Ok d
  | _ => Raise (no_attribute v "items")
  end.

(** The statement text and the bound values for a parameter mapping. *)
Definition exec_statement (procedure_name : pyval) (items : list (string * pyval))
    : string * list pyval :=
  let param_list := map (fun kv => "@" +:+ fst kv +:+ " = ?") items in
  let param_values := map snd items in
  ("EXEC " +:+ py_str procedure_name +:+ " " +:+ Py.join ", " param_list, param_values).

Definition execute_stored_procedure_tool (procedure_name parameters : pyval) : M pyval :=
  try_except
    (let* results :=
       (if truthy parameters then
          let* items := lift (py_items parameters) in
          let '(query, param_values) := exec_statement procedure_name items in
          execute_query query param_values
        else
          execute_query ("EXEC " +:+ py_str procedure_name) []) in
     let* timestamp := now_isoformat in
     ret (PDict [("success", PBool true);
                 ("procedure_name", procedure_name);
                 ("parameters", parameters);
                 ("results", rows_value results);
                 ("row_count", len_value results);
                 ("timestamp", PStr timestamp)]))
    (fun e =>
       let* timestamp := now_isoformat in
       ret (PDict [("success", PBool false);
                   ("error", PStr (str_exn e));
                   ("procedure_name", procedure_name);
                   ("parameters", parameters);
                   ("timestamp", PStr timestamp)])).

(** *** The registry [MCP_TOOLS] *)

(** A registered function: its name, the interpreter's text for it, its
    parameters in order with their defaults, and its body on the bound
    arguments. *)
Record tool_function := mk_function {
  fn_name : string;
  fn_str : string;
  fn_params : list (string * option pyval);
  fn_body : list pyval -> M pyval
}.

Record tool := mk_tool {
  function : tool_function;
  tool_description : string;
  parameters : pyval
}.

Definition arg (i : nat) (args : list pyval) : pyval := nth i args PNone.

Definition object_schema (properties : list (string * pyval)) (required : list string)
    : pyval :=
  PDict [("type", PStr "object");
         ("properties", PDict properties);
         ("required", PList (map PStr required))].

Definition property (ty desc : string) : pyval :=
  PDict [("type", PStr ty); ("description", PStr desc)].

(** The five [def]s as callable objects: name, signature, body. *)
Definition query_database_tool_fn : tool_function :=
  mk_function "query_database_tool" (function_str E "query_database_tool")
    [("query", None); ("limit", Some (PInt 100))]
    (fun args => query_database_tool (arg 0 args) (arg 1 args)).

Definition list_tables_tool_fn : tool_function :=
  mk_function "list_tables_tool" (function_str E "list_tables_tool") [] (fun _ => list_tables_tool).

Definition describe_table_tool_fn : tool_function :=
  mk_function "describe_table_tool" (function_str E "describe_table_tool") [("table_name", None)]
    (fun args => describe_table_tool (arg 0 args)).

Definition get_database_info_tool_fn : tool_function :=
  mk_function "get_database_info_tool" (function_str E "get_database_info_tool") []
    (fun _ => get_database_info_tool).

Definition execute_stored_procedure_tool_fn : tool_function :=
  mk_function "execute_stored_procedure_tool" (function_str E "execute_stored_procedure_tool")
    [("procedure_name", None); ("parameters", Some PNone)]
    (fun args => execute_stored_procedure_tool (arg 0 args) (arg 1 args)).

Definition MCP_TOOLS : list (string * tool) :=
  [ ("query_database",
     mk_tool query_database_tool_fn
       "Execute a SQL query against the database."
       (object_schema
          [("query", property "string" "SQL SELECT query to execute");
           ("limit", PDict [("type", PStr "integer");
                            ("description", PStr "Maximum rows to return");
                            ("default", PInt 100)])]
          ["query"]));
    ("list_tables",
     mk_tool list_tables_tool_fn
       "Get a list of all tables in the database."
       (object_schema [] []));
    ("describe_table",
     mk_tool describe_table_tool_fn
       "Get schema information for a specific table."
       (object_schema [("table_name", property "string" "Name of the table to describe")]
          ["table_name"]));
    ("get_database_info",
     mk_tool get_database_info_tool_fn
       "Get general information about the connected database."
       (object_schema [] []));
    ("execute_stored_procedure",
     mk_tool execute_stored_procedure_tool_fn
       "Execute a stored procedure."
       (object_schema
          [("procedure_name", property "string" "Name of the stored procedure");
           ("parameters", property "object" "Parameters for the stored procedure")]
          ["procedure_name"])) ].

(** *** Calling a function as [f( **arguments)] *)

Fixpoint first_unexpected (params : list (string * option pyval))
    (kwargs : list (string * pyval)) : option string :=
  match kwargs with
  | [] => None
  | (k, _) :: rest => if dict_has k params then first_unexpected params rest else Some k
  end.

Fixpoint missing_params (params : list (string * option pyval))
    (kwargs : list (string * pyval)) : list string :=
  match params with
  | [] => []
  | (p, default) :: rest =>
      match dict_get p kwargs, default with
      | None, None => p :: missing_params rest kwargs
      | _, _ => missing_params rest kwargs
      end
  end.

Fixpoint bound_values (params : list (string * option pyval))
    (kwargs : list (string * pyval)) : list pyval :=
  match params with
  | [] => []
  | (p, default) :: rest =>
      match dict_get p kwargs, default with
      | Some v, _ => v
      | None, Some d => d
      | None, None => PNone
      end :: bound_values rest kwargs
  end.

Definition quoted (s : string) : string := chr squote +:+ s +:+ chr squote.

(** The names in a "missing arguments" message. *)
Fixpoint name_list (names : list string) : string :=
  match names with
  | [] => EmptyString
  | [a] => quoted a
  | [a; b] => quoted a +:+ " and " +:+ quoted b
  | a :: rest => quoted a +:+ ", " +:+
                 match rest with
                 | [b; c] => quoted b +:+ ", and " +:+ quoted c
                 | _ => name_list rest
                 end
  end.

Definition bind_arguments (f : tool_function) (kwargs : list (string * pyval))
    : result (list pyval) :=
  match first_unexpected (fn_params f) kwargs with
  | Some k =>
      Raise (TypeError (fn_name f +:+ "() got an unexpected keyword argument "
                        +:+ quoted k))
  | None =>
      match missing_params (fn_params f) kwargs with
      | [] => Ok (bound_values (fn_params f) kwargs)
      | missing =>
          Raise (TypeError
                   (fn_name f +:+ "() missing " +:+ str_int (Z.of_nat (length missing))
                    +:+ " required positional argument"
                    +:+ (match missing with [_] => EmptyString | _ => "s" end)
                    +:+ ": " +:+ name_list missing))
      end
  end.

Definition call_function (f : tool_function) (arguments : pyval) : M pyval :=
  match arguments with
  | PDict kwargs =>
      let* args := lift (bind_arguments f kwargs) in
      fn_body f args
  | _ =>
      raise (TypeError (fn_str f +:+ " argument after ** must be a mapping, not "
                        +:+ type_name arguments))
  end.

(** *** The JSON-RPC dispatcher [mcp_handler] *)

(** [request.get(k, default)] on the request object. *)
Definition request_get (request : gmap string pyval) (k : string) (default : pyval)
    : pyval :=
  match request !! k with
  | Some v => v
  | None => default
  end.

(** [v.get(k, default)]: only a [dict] has the method. *)
Definition py_get (v : pyval) (k : string) (default : pyval) : result pyval :=
  match v with
  | PDict d => Ok (match dict_get k d with Some x => x | None => default end)
  | _ => Raise (no_attribute v "get")
  end.

(** [v == s] for a string literal [s]. *)
Definition eq_str (v : pyval) (s : string) : bool :=
  match v with
  | PStr s' => String.eqb s' s
  | _ => false
  end.

(** [MCP_TOOLS.get(tool_name)] as the membership test and the subscript
    use it: a list or a dict cannot be hashed, and only a string is equal
    to a key. *)
Definition registry_lookup (tool_name : pyval) : result (option tool) :=
  match tool_name with
  | PList _ | PDict _ =>
      Raise (TypeError ("unhashable type: " +:+ quoted (type_name tool_name)))
  | PStr s => Ok (dict_get s MCP_TOOLS)
  | _ => Ok None
  end.

Definition rpc_result (res id : pyval) : pyval :=
  PDict [("jsonrpc", PStr "2.0"); ("result", res); ("id", id)].

Definition rpc_error (code : Z) (message : string) (id : pyval) : pyval :=
  PDict [("jsonrpc", PStr "2.0");
         ("error", PDict [("code", PInt code); ("message", PStr message)]);
         ("id", id)].

Definition tool_content (text : string) (isError : bool) : pyval :=
  PDict [("content", PList [PDict [("type", PStr "text"); ("text", PStr text)]]);
         ("isError", PBool isError)].

Definition tool_listing : pyval :=
  PList (map (fun nc => PDict [("name", PStr (fst nc));
                               ("description", PStr (tool_description (snd nc)));
                               ("inputSchema", parameters (snd nc))])
             MCP_TOOLS).

Definition initialize_result : pyval :=
  PDict [("protocolVersion", PStr "2024-11-05");
         ("capabilities",
          PDict [("tools", PDict [("listChanged", PBool true)]);
                 ("resources", PDict []);
                 ("prompts", PDict [])]);
         ("serverInfo",
          PDict [("name", PStr "SQL Server MCP");
                 ("version", PStr "1.0.0");
                 ("description",
                  PStr "Model Context Protocol server for MS SQL Server database operations")])].

(** Lines 489-520: the call of the tool inside its own [try]. *)
Definition run_tool (t : tool) (arguments id : pyval) : M pyval :=
  try_except
    (let* result := call_function (function t) arguments in
     let* text := lift (json_dumps result) in
     ret (rpc_result (tool_content text false) id))
    (fun e =>
       let* text := lift (json_dumps (PDict [("error", PStr (str_exn e))])) in
       ret (rpc_result (tool_content text true) id)).

Definition mcp_handler (request : gmap string pyval) : M pyval :=
  let id := request_get request "id" (PInt 1) in
  let method := request_get request "method" PNone in
  try_except
    (if eq_str method "tools/list" then
       ret (rpc_result (PDict [("tools", tool_listing)]) id)
     else if eq_str method "tools/call" then
       let params := request_get request "params" (PDict []) in
       let* tool_name := lift (py_get params "name" PNone) in
       let* arguments := lift (py_get params "arguments" (PDict [])) in
       let* found := lift (registry_lookup tool_name) in
       match found with
       | None => ret (rpc_error (-1) ("Tool '" +:+ py_str tool_name +:+ "' not found") id)
       | Some t => run_tool t arguments id
       end
     else if eq_str method "initialize" then
       ret (rpc_result initialize_result id)
     else
       ret (rpc_error (-32601) ("Method '" +:+ py_str method +:+ "' not found") id))
    (fun e => ret (rpc_error (-1) (str_exn e) id)).

End WithEnv.
End Main.

(** ** [database.py]: the serializer of [QueryExecutor.execute_select_query] *)

Module Database.

Definition binary_placeholder (value : list byte) : string :=
  "<binary data: " +:+ str_int (Z.of_nat (length value)) +:+ " bytes>".

(** The value stored for one column of a row (lines 141-150). *)
Definition serialize_value (value : pyval) : pyval :=
  match value with
  | PDateTime d => PStr (isoformat d)
  | PBytes b =>
      match bytes_decode_utf8 b with
      | Some s => PStr s
      | None => PStr (binary_placeholder b)
      end
  | _ => value
  end.

(** The loop [for i, value in enumerate(row)] from index [i] on. *)
Fixpoint serialize_row (columns : list string) (i : nat) (row : list pyval)
    (row_dict : list (string * pyval)) : result (list (string * pyval)) :=
  match row with
  | [] => Ok row_dict
  | value :: rest =>
      match nth_error columns i with
      | None => Raise (IndexError "list index out of range")
      | Some c => serialize_row columns (S i) rest (dict_set c (serialize_value value) row_dict)
      end
  end.

(** *** [DatabaseConnection] and [QueryExecutor]

    This module has its own connection manager: a context manager that
    closes the connection in its [finally], with no [HTTPException]
    around the driver's errors.  What the code does to the driver is a
    list of [event]s; the driver answers from the events so far. *)

Inductive event :=
| Connect                                        (* pyodbc.connect(...) *)
| Execute (sql : string) (params : list pyval)   (* cursor.execute(sql[, params]) *)
| FetchAll                                       (* cursor.fetchall() *)
| Commit                                         (* conn.commit() *)
| Rollback                                       (* conn.rollback() *)
| Close.                                         (* conn.close() *)

(** A cursor after [execute]: column names, what [fetchall] does, and
    [cursor.rowcount]. *)
Record db_cursor := mk_db_cursor {
  cur_description : option (list string);
  cur_fetchall : result (list (list pyval));
  cur_rowcount : Z
}.

Record driver := mk_driver {
  connect : list event -> option exn;
  execute : list event -> string -> list pyval -> result db_cursor;
  commit : list event -> option exn;
  rollback : list event -> option exn
}.

(** The two settings [QueryExecutor.__init__] reads from the environment. *)
Record executor := mk_executor {
  max_rows : Z;
  enable_write_ops : bool
}.

Definition D (A : Type) : Type := list event -> result A * list event.

Definition dret {A} (a : A) : D A := fun log => (Ok a, log).

Definition draise {A} (e : exn) : D A := fun log => (Raise e, log).

Definition dbind {A B} (m : D A) (k : A -> D B) : D B :=
  fun log => match m log with
             | (Ok a, log') => k a log'
             | (Raise e, log') => (Raise e, log')
             end.

Definition dlift {A} (r : result A) : D A := fun log => (r, log).

Fixpoint serialize_rows (columns : list string) (fetched : list (list pyval))
    : result (list (list (string * pyval))) :=
  match fetched with
  | [] => Ok []
  | row :: rest =>
      match serialize_row columns 0 row [] with
      | Raise e => Raise e
      | Ok d => match serialize_rows columns rest with
                | Raise e => Raise e
                | Ok ds => Ok (d :: ds)
                end
      end
  end.

(** [limit or max_rows] *)
Definition limit_or (limit : option Z) (default : Z) : Z :=
  match limit with
  | Some l => if l =? 0 then default else l
  | None => default
  end.

(** Lines 109-121 of [execute_select_query]: the check and the text that
    is run.  The slices are taken from the query as given, untrimmed. *)
Definition select_text (X : executor) (query : string) (limit : option Z)
    : result string :=
  let query_upper := Py.upper (Py.strip query) in
  if negb (Py.startswith query_upper "SELECT") then
    Raise (ValueError "Only SELECT queries are allowed")
  else
    let effective_limit := Z.min (limit_or limit (max_rows X)) (max_rows X) in
    if negb (Py.contains "TOP " query_upper) && negb (Py.contains "LIMIT " query_upper) then
      if Py.startswith query_upper "SELECT DISTINCT"
      then Ok ("SELECT DISTINCT TOP " +:+ str_int effective_limit +:+ " "
               +:+ Py.slice_from 15 query)
      else Ok ("SELECT TOP " +:+ str_int effective_limit +:+ " "
               +:+ Py.slice_from 6 query)
    else Ok query.

Definition allowed_ops : list string :=
  ["INSERT"; "UPDATE"; "DELETE"; "EXEC"; "EXECUTE"].

Section WithDriver.

Variable Drv : driver.

(** [with self.db_connection.get_connection() as conn: body] *)
Definition get_connection {A} (body : D A) : D A :=
  fun log =>
    match connect Drv log with
    | Some e => (Raise e, log ++ [Connect])
    | None =>
        match body (log ++ [Connect]) with
        | (r, log') => (r, log' ++ [Close])
        end
    end.

Definition cursor_execute (query : string) (params : list pyval) : D db_cursor :=
  fun log => (execute Drv log query params, log ++ [Execute query params]).

Definition cursor_fetchall (c : db_cursor) : D (list (list pyval)) :=
  fun log => (cur_fetchall c, log ++ [FetchAll]).

Definition conn_commit : D unit :=
  fun log => (match commit Drv log with Some e => Raise e | None => Ok tt end,
              log ++ [Commit]).

Definition conn_rollback : D unit :=
  fun log => (match rollback Drv log with Some e => Raise e | None => Ok tt end,
              log ++ [Rollback]).

Definition execute_select_query (X : executor) (query : string)
    (params : list pyval) (limit : option Z) : D (list (list (string * pyval))) :=
  dbind (dlift (select_text X query limit)) (fun query =>
  get_connection
    (dbind (cursor_execute query params) (fun c =>
     let columns := match cur_description c with Some cols => cols | None => [] end in
     dbind (cursor_fetchall c) (fun fetched =>
     dlift (serialize_rows columns fetched))))).

Definition execute_non_query (X : executor) (query : string) (params : list pyval)
    : D Z :=
  if negb (enable_write_ops X) then
    draise (ValueError "Write operations are disabled for security")
  else
    let query_upper := Py.upper (Py.strip query) in
    if negb (existsb (Py.startswith query_upper) allowed_ops) then
      draise (ValueError ("Only " +:+ Py.join ", " allowed_ops
                          +:+ " operations are allowed"))
    else
      get_connection
        (fun log =>
           match dbind (cursor_execute query params) (fun c =>
                 dbind conn_commit (fun _ => dret (cur_rowcount c))) log with
           | (Ok n, log') => (Ok n, log')
           | (Raise e, log') =>
               dbind conn_rollback (fun _ => draise e) log'
           end).

End WithDriver.

End Database.

(** ** The rewritten text *)

(** The text that lines 143-147 of [main.py] build for an integer limit
    [L], written out for the statements below. *)
Definition limited (query : string) (L : Z) : string :=
  let u := Py.upper (Py.strip query) in
  if Py.startswith u "SELECT DISTINCT"
  then "SELECT DISTINCT TOP " +:+ str_int (Z.min L 1000) +:+ " "
       +:+ Py.slice_from 15 (Py.strip query)
  else "SELECT TOP " +:+ str_int (Z.min L 1000) +:+ " "
       +:+ Py.slice_from 6 (Py.strip query).

(** ** Observing a run *)

(** The statements among some events, with their bound values. *)
Fixpoint statements (events : list db_event) : list (string * list pyval) :=
  match events with
  | [] => []
  | EvExecute sql params :: rest => (sql, params) :: statements rest
  | _ :: rest => statements rest
  end.

(** What was done to the database between two worlds. *)
Definition new_events (w w' : world) : list db_event :=
  skipn (length (db_log w)) (db_log w').

(** What reaches the database when a statement is run on a fresh
    connection: the statement if the connection opens, nothing otherwise. *)
Definition sent (E : env) (w : world) (sql : string) (params : list pyval)
    : list (string * list pyval) :=
  match drv_connect E (db_log w) with
  | None => [(sql, params)]
  | Some _ => []
  end.

(** Four bytes that are no UTF-8. *)
Definition undecodable : list byte := [Byte.xff; Byte.xfe; Byte.xfd; Byte.xfc].

(** A driver for examples: every connection opens and every statement
    returns the one row [(1, undecodable)] under the columns [n] and
    [blob]; the clock stands at 2024-01-02 03:04:05. *)
Definition example_env : env :=
  mk_env (fun _ => None)
         (fun _ _ _ =>
            Ok (mk_cursor (Some ["n"; "blob"]) (Ok [[PInt 1; PBytes undecodable]])))
         (fun _ => mk_datetime 2024 1 2 (Some (3, 4, 5, 0)))
         (fun st d => str_int st +:+ ": " +:+ d)
         (fun name => "main." +:+ name +:+ "()").

Definition idle : world := mk_world [] 0.

(** A request object from its members. *)
Definition request_of (members : list (string * pyval)) : gmap string pyval :=
  list_to_map members.

(** The statements a computation puts before the database when it starts
    in [idle]. *)
Definition statements_of {A} (m : M A) : list (string * list pyval) :=
  statements (db_log (snd (m idle))).

(** The text of [json.dumps({"error": message}, indent=2)]. *)
Definition error_text (message : string) : string :=
  "{" +:+ chr newline +:+ "  " +:+ json_string "error" +:+ ": "
  +:+ json_string message +:+ chr newline +:+ "}".

(** A call of [query_database] without arguments, and the same request
    without its [jsonrpc] member. *)
Definition call_without_query : gmap string pyval :=
  request_of [("jsonrpc", PStr "2.0");
              ("method", PStr "tools/call");
              ("params", PDict [("name", PStr "query_database");
                                ("arguments", PDict [])]);
              ("id", PInt 7)].

Definition call_without_version : gmap string pyval :=
  request_of [("method", PStr "tools/call");
              ("params", PDict [("name", PStr "query_database");
                                ("arguments", PDict [])]);
              ("id", PInt 7)].

(** A call of [query_database] for a table with a binary column. *)
Definition call_select_blob : gmap string pyval :=
  request_of [("jsonrpc", PStr "2.0");
              ("method", PStr "tools/call");
              ("params", PDict [("name", PStr "query_database");
                                ("arguments", PDict [("query", PStr "SELECT n, blob FROM t")])]);
              ("id", PInt 8)].



(** ** More drivers for examples *)


(** A driver that finds nothing: every statement has the one column
    [TABLE_NAME] and no rows. *)
Definition empty_env : env :=
  mk_env (fun _ => None)
         (fun _ _ _ => Ok (mk_cursor (Some ["TABLE_NAME"]) (Ok [])))
         (fun _ => mk_datetime 2024 1 2 (Some (3, 4, 5, 0)))
         (fun st d => str_int st +:+ ": " +:+ d)
         (fun name => "main." +:+ name +:+ "()").

(** The four statements of [get_database_info_tool], in its order. *)
Definition info_statements : list (string * list pyval) :=
  [("SELECT @@VERSION as version", []);
   ("SELECT DB_NAME() as database_name", []);
   ("SELECT @@SERVERNAME as server_name", []);
   (Main.tables_query, [])].

(** A driver with two tables, and one whose answer has no [TABLE_NAME]
    column. *)
Definition tables_env : env :=
  mk_env (fun _ => None)
         (fun _ _ _ => Ok (mk_cursor (Some ["TABLE_NAME"])
                             (Ok [[PStr "orders"]; [PStr "users"]])))
         (fun _ => mk_datetime 2024 1 2 (Some (3, 4, 5, 0)))
         (fun st d => str_int st +:+ ": " +:+ d)
         (fun name => "main." +:+ name +:+ "()").

Definition nameless_env : env :=
  mk_env (fun _ => None)
         (fun _ _ _ => Ok (mk_cursor (Some ["name"]) (Ok [[PStr "orders"]])))
         (fun _ => mk_datetime 2024 1 2 (Some (3, 4, 5, 0)))
         (fun st d => str_int st +:+ ": " +:+ d)
         (fun name => "main." +:+ name +:+ "()").

(** A driver whose row holds an integer, a date and bytes, and one whose
    row has more values than the cursor has columns. *)
Definition dated_env : env :=
  mk_env (fun _ => None)
         (fun _ _ _ => Ok (mk_cursor (Some ["n"; "day"; "blob"])
                             (Ok [[PInt 1; PDateTime (mk_datetime 2024 1 2 None);
                                   PBytes undecodable]])))
         (fun _ => mk_datetime 2024 1 2 (Some (3, 4, 5, 0)))
         (fun st d => str_int st +:+ ": " +:+ d)
         (fun name => "main." +:+ name +:+ "()").

Definition wide_row_env : env :=
  mk_env (fun _ => None)
         (fun _ _ _ => Ok (mk_cursor (Some ["n"]) (Ok [[PInt 1; PInt 2]])))
         (fun _ => mk_datetime 2024 1 2 (Some (3, 4, 5, 0)))
         (fun st d => str_int st +:+ ": " +:+ d)
         (fun name => "main." +:+ name +:+ "()").

(** A driver on which the statement for the server name fails. *)
Definition flaky_env : env :=
  mk_env (fun _ => None)
         (fun _ sql _ =>
            if String.eqb sql "SELECT @@SERVERNAME as server_name"
            then Raise (DriverError "permission denied")
            else Ok (mk_cursor (Some ["TABLE_NAME"]) (Ok [])))
         (fun _ => mk_datetime 2024 1 2 (Some (3, 4, 5, 0)))
         (fun st d => str_int st +:+ ": " +:+ d)
         (fun name => "main." +:+ name +:+ "()").

(** The events of one run of [execute_query] that returns rows, and
    those of a run that fails: at the connection, at the statement, or
    behind it. *)
Definition clean_run (query : string) : list db_event :=
  [EvConnect; EvExecute query []; EvFetchAll; EvExit true].

Definition failed_run (query : string) (events : list db_event) : Prop :=
  events = [EvConnect]
  \/ events = [EvConnect; EvExecute query []; EvExit false]
  \/ events = [EvConnect; EvExecute query []; EvFetchAll; EvExit false].

(** ** Reading a tool's schema *)

(** The names under [properties] of an input schema. *)
Definition schema_properties (schema : pyval) : list string :=
  match schema with
  | PDict d => match dict_get "properties" d with
               | Some (PDict ps) => map fst ps
               | _ => []
               end
  | _ => []
  end.

(** The names in the [required] list of an input schema. *)
Definition schema_required (schema : pyval) : list string :=
  match schema with
  | PDict d => match dict_get "required" d with
               | Some (PList l) =>
                   flat_map (fun v => match v with PStr s => [s] | _ => [] end) l
               | _ => []
               end
  | _ => []
  end.

(** The names a [tools/list] response shows. *)
Definition listed_names (listing : pyval) : list pyval :=
  match listing with
  | PList l => flat_map (fun t => match t with
                                  | PDict d => match dict_get "name" d with
                                               | Some n => [n]
                                               | None => []
                                               end
                                  | _ => []
                                  end) l
  | _ => []
  end.

(** The parameters of a signature that have no default. *)
Definition required_params (params : list (string * option pyval)) : list string :=
  flat_map (fun p => match snd p with None => [fst p] | Some _ => [] end) params.

(** A driver for [database.py] on which everything succeeds: statements
    affect three rows and return the one row [(1,)] under [n]. *)
Definition ok_driver : Database.driver :=
  Database.mk_driver (fun _ => None)
    (fun _ _ _ => Ok (Database.mk_db_cursor (Some ["n"]) (Ok [[PInt 1]]) 3))
    (fun _ => None) (fun _ => None).

(** An executor with the default row limit and write operations enabled. *)
Definition writer : Database.executor := Database.mk_executor 1000 true.

(** A request for a method the dispatcher does not have. *)
Definition call_of_unknown_method : gmap string pyval :=
  request_of [("jsonrpc", PStr "2.0"); ("method", PStr "resources/list"); ("id", PInt 3)].

(** A call of a tool that is not registered, and a call whose [params]
    is a list. *)
Definition call_of_unknown_tool : gmap string pyval :=
  request_of [("method", PStr "tools/call");
              ("params", PDict [("name", PStr "drop_table")]);
              ("id", PInt 4)].

Definition call_with_list_params : gmap string pyval :=
  request_of [("method", PStr "tools/call"); ("params", PList []); ("id", PInt 5)].

(** A call that names no tool. *)
Definition call_without_name : gmap string pyval :=
  request_of [("method", PStr "tools/call");
              ("params", PDict [("arguments", PDict [])]);
              ("id", PInt 8)].

(** A call of [list_tables]. *)
Definition call_list_tables : gmap string pyval :=
  request_of [("method", PStr "tools/call");
              ("params", PDict [("name", PStr "list_tables")]);
              ("id", PInt 6)].

(** * Properties *)

(** ** Strings *)

Lemma append_cons (c : ascii) (s t : string) :
  String c s +:+ t = String c (s +:+ t).
Proof. reflexivity. Qed.

Lemma append_empty (t : string) : EmptyString +:+ t = t.
Proof. reflexivity. Qed.

Lemma append_empty_r (t : string) : t +:+ EmptyString = t.
Proof. induction t as [|c t IH]; [reflexivity|]. now rewrite append_cons, IH. Qed.

Lemma append_assoc (a b c : string) : (a +:+ b) +:+ c = a +:+ (b +:+ c).
Proof. induction a as [|x a IH]; [reflexivity|]. now rewrite !append_cons, IH. Qed.

Lemma length_append (a b : string) :
  String.length (a +:+ b) = (String.length a + String.length b)%nat.
Proof. induction a as [|c a IH]; [reflexivity|]. rewrite append_cons. cbn. now rewrite IH. Qed.

Lemma cat_app (l1 l2 : list string) :
  Py.cat (l1 ++ l2) = Py.cat l1 +:+ Py.cat l2.
Proof.
  induction l1 as [|ch l1 IH]; [reflexivity|].
  cbn [app Py.cat]. now rewrite IH, append_assoc.
Qed.

(** Cutting a string into characters loses nothing. *)
Lemma cat_chars (s : string) : Py.cat (Py.chars s) = s.
Proof.
  induction s as [|c t IH]; [reflexivity|].
  cbn [Py.chars]. destruct (Py.chars t) as [|ch rest].
  - cbn in IH. subst t. reflexivity.
  - destruct (Py.starts_with_cont ch); cbn [Py.cat] in *;
      now rewrite ?append_cons, ?append_empty, IH.
Qed.

Lemma slice_to_from (n : nat) (s : string) :
  Py.slice_to n s +:+ Py.slice_from n s = s.
Proof.
  unfold Py.slice_to, Py.slice_from.
  now rewrite <- cat_app, take_drop, cat_chars.
Qed.

(** The first character of a string begins with its first byte. *)
Lemma chars_head (c : ascii) (t : string) :
  exists body rest, Py.chars (String c t) = String c body :: rest.
Proof.
  cbn [Py.chars]. destruct (Py.chars t) as [|ch rest]; [now eexists _, _|].
  destruct (Py.starts_with_cont ch); now eexists _, _.
Qed.

Lemma chars_cons (c : ascii) (t : string) :
  Py.starts_with_cont t = false ->
  Py.chars (String c t) = String c EmptyString :: Py.chars t.
Proof.
  intros H. cbn [Py.chars]. destruct t as [|d t]; [reflexivity|].
  destruct (chars_head d t) as (body & rest & ->).
  cbn in H |- *. now rewrite H.
Qed.

(** A string is cut at every byte that begins a character. *)
Lemma chars_app (a b : string) :
  Py.starts_with_cont b = false ->
  Py.chars (a +:+ b) = Py.chars a ++ Py.chars b.
Proof.
  intros Hb. induction a as [|c a IH]; [reflexivity|].
  rewrite append_cons. destruct a as [|d a].
  - rewrite append_empty. now rewrite chars_cons.
  - cbn [Py.chars] in *. rewrite append_cons in *. cbn [Py.chars] in IH |- *.
    rewrite IH.
    destruct (chars_head d a) as (body & rest & Hda). cbn [Py.chars] in Hda.
    rewrite Hda. cbn [app]. now destruct (Py.starts_with_cont (String d body)).
Qed.

Lemma isascii_no_cont (s : string) :
  Py.isascii s = true -> Py.starts_with_cont s = false.
Proof.
  destruct s as [|c t]; [reflexivity|]. cbn. unfold Py.is_cont.
  intros H. apply andb_prop in H as [H _]. apply N.ltb_lt in H.
  apply andb_false_iff. left. apply N.leb_gt. lia.
Qed.

Lemma chars_ascii (s : string) :
  Py.isascii s = true -> Py.chars s = Bytewise.singles s.
Proof.
  induction s as [|c t IH]; [reflexivity|]. intros H.
  cbn in H. apply andb_prop in H as [_ Ht].
  rewrite chars_cons by now apply isascii_no_cont.
  cbn. now rewrite IH.
Qed.

Lemma cat_singles (s : string) : Py.cat (Bytewise.singles s) = s.
Proof.
  induction s as [|c t IH]; [reflexivity|].
  cbn. now rewrite append_cons, append_empty, IH.
Qed.

(** On a single byte the operations on characters are those on bytes. *)
Lemma isspace_single (c : ascii) :
  Py.isspace (String c EmptyString) = Bytewise.isspace c.
Proof. destruct c as [[] [] [] [] [] [] [] []]; vm_compute; reflexivity. Qed.

Lemma upper_char_single (c : ascii) :
  Py.upper_char (String c EmptyString) = String (Bytewise.upper_char c) EmptyString.
Proof. destruct c as [[] [] [] [] [] [] [] []]; vm_compute; reflexivity. Qed.

Lemma lstrip_singles (s : string) :
  Py.lstrip_chars (Bytewise.singles s) = Bytewise.singles (Bytewise.lstrip s).
Proof.
  induction s as [|c t IH]; [reflexivity|].
  cbn [Bytewise.singles Py.lstrip_chars Bytewise.lstrip]. rewrite isspace_single.
  now destruct (Bytewise.isspace c).
Qed.

Lemma rstrip_singles (s : string) :
  Py.rstrip_chars (Bytewise.singles s) = Bytewise.singles (Bytewise.rstrip s).
Proof.
  induction s as [|c t IH]; [reflexivity|].
  cbn [Bytewise.singles Py.rstrip_chars Bytewise.rstrip].
  rewrite isspace_single, IH.
  destruct (Bytewise.rstrip t); cbn; now destruct (Bytewise.isspace c).
Qed.

Lemma upper_singles (s : string) :
  Py.cat (map Py.upper_char (Bytewise.singles s)) = Bytewise.upper s.
Proof.
  induction s as [|c t IH]; [reflexivity|].
  cbn [Bytewise.singles map Py.cat Bytewise.upper].
  now rewrite upper_char_single, IH.
Qed.

Lemma drop_singles (n : nat) (s : string) :
  drop n (Bytewise.singles s) = Bytewise.singles (Bytewise.slice_from n s).
Proof. revert s. induction n as [|n IH]; intros [|c t]; cbn; auto. Qed.

Lemma take_singles (n : nat) (s : string) :
  take n (Bytewise.singles s) = Bytewise.singles (Bytewise.slice_to n s).
Proof. revert s. induction n as [|n IH]; intros [|c t]; cbn; auto. now rewrite IH. Qed.

(** *** ASCII text *)

Lemma isascii_app (a b : string) :
  Py.isascii (a +:+ b) = Py.isascii a && Py.isascii b.
Proof.
  induction a as [|c a IH]; [reflexivity|].
  rewrite append_cons. cbn. now rewrite IH, andb_assoc.
Qed.

Lemma isascii_lstrip (s : string) :
  Py.isascii s = true -> Py.isascii (Bytewise.lstrip s) = true.
Proof.
  induction s as [|c t IH]; [reflexivity|]. intros H. cbn [Bytewise.lstrip].
  destruct (Bytewise.isspace c); [|exact H].
  cbn in H. apply andb_prop in H as [_ H]. now apply IH.
Qed.

Lemma isascii_rstrip (s : string) :
  Py.isascii s = true -> Py.isascii (Bytewise.rstrip s) = true.
Proof.
  induction s as [|c t IH]; [reflexivity|]. intros H. cbn [Bytewise.rstrip].
  cbn in H. apply andb_prop in H as [Hc H].
  destruct (Bytewise.isspace c && Py.is_empty (Bytewise.rstrip t)); [reflexivity|].
  cbn. now rewrite Hc, IH.
Qed.

Lemma isascii_slice_to (n : nat) (s : string) :
  Py.isascii s = true -> Py.isascii (Bytewise.slice_to n s) = true.
Proof.
  revert s. induction n as [|n IH]; intros [|c t]; cbn; try reflexivity.
  intros H. apply andb_prop in H as [-> H]. now apply IH.
Qed.

Lemma strip_ascii (s : string) :
  Py.isascii s = true -> Py.strip s = Bytewise.strip s.
Proof.
  intros H. unfold Py.strip, Bytewise.strip.
  now rewrite chars_ascii, lstrip_singles, rstrip_singles, cat_singles.
Qed.

Lemma lstrip_ascii (s : string) :
  Py.isascii s = true -> Py.lstrip s = Bytewise.lstrip s.
Proof.
  intros H. unfold Py.lstrip. now rewrite chars_ascii, lstrip_singles, cat_singles.
Qed.

Lemma upper_ascii (s : string) :
  Py.isascii s = true -> Py.upper s = Bytewise.upper s.
Proof. intros H. unfold Py.upper. now rewrite chars_ascii, upper_singles. Qed.

Lemma slice_from_ascii (n : nat) (s : string) :
  Py.isascii s = true -> Py.slice_from n s = Bytewise.slice_from n s.
Proof. intros H. unfold Py.slice_from. now rewrite chars_ascii, drop_singles, cat_singles. Qed.

Lemma slice_to_ascii (n : nat) (s : string) :
  Py.isascii s = true -> Py.slice_to n s = Bytewise.slice_to n s.
Proof. intros H. unfold Py.slice_to. now rewrite chars_ascii, take_singles, cat_singles. Qed.

Lemma isascii_strip (s : string) :
  Py.isascii s = true -> Py.isascii (Py.strip s) = true.
Proof.
  intros H. rewrite strip_ascii by exact H.
  now apply isascii_rstrip, isascii_lstrip.
Qed.

Lemma bytewise_upper_slice_to (n : nat) (s : string) :
  Bytewise.upper (Bytewise.slice_to n s) = Bytewise.slice_to n (Bytewise.upper s).
Proof.
  revert s. induction n as [|n IH]; intros [|c t]; cbn; try reflexivity.
  now rewrite IH.
Qed.

Lemma startswith_slice_to (s p : string) :
  Py.startswith s p = true -> Bytewise.slice_to (String.length p) s = p.
Proof.
  revert s. induction p as [|a p IH]; intros [|b s]; cbn; try easy.
  destruct (Ascii.eqb_spec a b) as [->|]; [|easy].
  intros H. now rewrite (IH _ H).
Qed.

Lemma startswith_of_slice_to (s p : string) :
  Bytewise.slice_to (String.length p) s = p -> Py.startswith s p = true.
Proof.
  revert s. induction p as [|a p IH]; intros [|b s]; cbn; try easy.
  intros [= -> H]. rewrite Ascii.eqb_refl. now apply IH.
Qed.

(** In ASCII text a prefix found in the uppercased text is the uppercased
    prefix of the text itself, character for character. *)
Lemma startswith_upper_slice (s p : string) :
  Py.isascii s = true ->
  Py.startswith (Py.upper s) p = true ->
  Py.upper (Py.slice_to (String.length p) s) = p.
Proof.
  intros Ha H. rewrite upper_ascii in H by exact Ha.
  rewrite slice_to_ascii by exact Ha.
  rewrite upper_ascii by now apply isascii_slice_to.
  rewrite bytewise_upper_slice_to. now apply startswith_slice_to.
Qed.

(** *** Text behind an ASCII prefix *)

Lemma startswith_append (a b p : string) :
  Py.startswith a p = true -> Py.startswith (a +:+ b) p = true.
Proof.
  revert a. induction p as [|x p IH]; intros [|y a]; try easy.
  rewrite append_cons. cbn. destruct (Ascii.eqb x y); [apply IH|easy].
Qed.

Lemma startswith_iff_append (s p : string) :
  Py.startswith s p = true <-> exists behind, s = p +:+ behind.
Proof.
  split.
  - revert s. induction p as [|a p IH]; intros s H; [now exists s|].
    destruct s as [|b s]; [discriminate|]. cbn in H.
    destruct (Ascii.eqb_spec a b) as [->|]; [|discriminate].
    destruct (IH s H) as (behind & ->). now exists behind.
  - intros (behind & ->). induction p as [|a p IH]; [reflexivity|].
    rewrite append_cons. cbn. now rewrite Ascii.eqb_refl.
Qed.

Lemma contains_append (p a b : string) :
  Py.contains p a = true -> Py.contains p (a +:+ b) = true.
Proof.
  induction a as [|c a IH].
  - cbn. destruct p; [|discriminate]. intros _. now destruct b.
  - rewrite append_cons. cbn [Py.contains]. intros H.
    apply orb_prop in H as [H|H]; apply orb_true_iff; [left|right; auto].
    now apply (startswith_append (String c a) b).
Qed.

Lemma upper_app (a b : string) :
  Py.starts_with_cont b = false ->
  Py.upper (a +:+ b) = Py.upper a +:+ Py.upper b.
Proof.
  intros H. unfold Py.upper. now rewrite chars_app, map_app, cat_app.
Qed.

Lemma rstrip_chars_head (l : list string) :
  Py.rstrip_chars l = [] \/ exists ch rest rest', l = ch :: rest /\ Py.rstrip_chars l = ch :: rest'.
Proof.
  destruct l as [|ch rest]; [now left|]. cbn.
  destruct (Py.isspace ch && Py.is_nil (Py.rstrip_chars rest)); [now left|].
  right. now eexists _, _, _.
Qed.

(** Trailing white space is only removed behind the last character that
    is none. *)
Lemma rstrip_chars_keep (a : list string) (ch : string) (b : list string) :
  Py.isspace ch = false ->
  Py.rstrip_chars (a ++ ch :: b) = a ++ ch :: Py.rstrip_chars b.
Proof.
  intros Hc. induction a as [|x a IH]; cbn [app Py.rstrip_chars].
  - now rewrite Hc.
  - rewrite IH. destruct a; cbn; now rewrite andb_false_r.
Qed.

(** What is left of a text that begins a character, trimmed on the right,
    begins a character. *)
Lemma rstrip_no_cont (c : ascii) (t : string) :
  Py.is_cont c = false ->
  Py.starts_with_cont (Py.cat (Py.rstrip_chars (Py.chars (String c t)))) = false.
Proof.
  intros Hc. destruct (chars_head c t) as (body & rest & ->).
  destruct (rstrip_chars_head (String c body :: rest)) as [->|(ch & r & r' & [= <- <-] & ->)];
    [reflexivity|exact Hc].
Qed.

Lemma lstrip_chars_length (l : list string) :
  (length (Py.lstrip_chars l) <= length l)%nat.
Proof. induction l as [|x l IH]; cbn; [lia|]. destruct (Py.isspace x); cbn; lia. Qed.

(** Trimming and uppercasing a text whose first character is no white
    space, behind a [P] inside it that is followed by a space. *)
Lemma upper_strip_behind (head tail : string) :
  Py.isascii head = true ->
  Py.lstrip_chars (Bytewise.singles head ++ ["P"%string])
  = Bytewise.singles head ++ ["P"%string] ->
  exists rest,
    Py.upper (Py.strip ((head +:+ "P") +:+ String " " tail))
    = Py.upper (head +:+ "P") +:+ rest.
Proof.
  intros Ha Hl. unfold Py.strip.
  rewrite chars_app by reflexivity.
  rewrite chars_app by reflexivity.
  rewrite (chars_ascii head) by exact Ha.
  change (Py.chars "P") with ["P"%string].
  assert (Hls : forall X, Py.lstrip_chars ((Bytewise.singles head ++ ["P"%string]) ++ X)
                          = (Bytewise.singles head ++ ["P"%string]) ++ X).
  { intros X. destruct head as [|h head].
    - reflexivity.
    - cbn [Bytewise.singles app Py.lstrip_chars] in Hl |- *.
      destruct (Py.isspace (String h EmptyString)); [|reflexivity].
      exfalso.
      pose proof (lstrip_chars_length (Bytewise.singles head ++ ["P"%string])) as Hle.
      rewrite Hl in Hle. cbn in Hle. lia. }
  rewrite Hls, <- app_assoc. cbn [app].
  rewrite rstrip_chars_keep by reflexivity.
  rewrite cat_app. cbn [Py.cat]. rewrite cat_singles.
  rewrite <- append_assoc.
  rewrite upper_app by (apply rstrip_no_cont; reflexivity).
  now eexists.
Qed.

(** A text that begins with [SELECT ... TOP] still shows [TOP] after
    trimming and uppercasing. *)
Lemma top_visible (mid tail : string) :
  mid = "SELECT" \/ mid = "SELECT DISTINCT" ->
  Py.contains "TOP" (Py.upper (Py.strip (mid +:+ " TOP " +:+ tail))) = true.
Proof.
  intros [-> | ->].
  - change ("SELECT" +:+ " TOP " +:+ tail)
      with (("SELECT TO" +:+ "P") +:+ String " " tail).
    destruct (upper_strip_behind "SELECT TO" tail eq_refl eq_refl) as (rest & ->).
    now apply contains_append.
  - change ("SELECT DISTINCT" +:+ " TOP " +:+ tail)
      with (("SELECT DISTINCT TO" +:+ "P") +:+ String " " tail).
    destruct (upper_strip_behind "SELECT DISTINCT TO" tail eq_refl eq_refl) as (rest & ->).
    now apply contains_append.
Qed.

Lemma Ok_inj {A} (a b : A) : Ok a = Ok b -> a = b.
Proof. now intros [= ->]. Qed.

(** ** The gate *)

Lemma py_str_capped (L : Z) :
  py_str (if 1000 <? L then PInt 1000 else PInt L) = str_int (Z.min L 1000).
Proof.
  destruct (Z.ltb_spec 1000 L); cbn.
  - now rewrite Z.min_r by lia.
  - now rewrite Z.min_l by lia.
Qed.

Lemma apply_row_limit_int (query : string) (L : Z) :
  let u := Py.upper (Py.strip query) in
  Py.contains "TOP" u = false -> Py.contains "LIMIT" u = false ->
  Main.apply_row_limit query u (PInt L) = Ok (limited query L).
Proof.
  intros u HT HL. unfold Main.apply_row_limit, limited. fold u.
  rewrite HT, HL. cbn [negb andb Main.py_gt_int].
  destruct (Py.startswith u "SELECT DISTINCT");
    now rewrite py_str_capped.
Qed.

Lemma apply_row_limit_token (query u : string) (limit : pyval) :
  Py.contains "TOP" u || Py.contains "LIMIT" u = true ->
  Main.apply_row_limit query u limit = Ok query.
Proof.
  unfold Main.apply_row_limit.
  destruct (Py.contains "LIMIT" u), (Py.contains "TOP" u); cbn; easy.
Qed.

(** Whatever the gate builds shows [TOP], so it is never the text it was
    given. *)
Lemma apply_row_limit_changes (query : string) (limit : pyval) (text : string) :
  let u := Py.upper (Py.strip query) in
  Py.contains "TOP" u || Py.contains "LIMIT" u = false ->
  Main.apply_row_limit query u limit = Ok text ->
  text <> query
  /\ Py.startswith text "SELECT TOP " || Py.startswith text "SELECT DISTINCT TOP " = true.
Proof.
  intros u Hno. apply orb_false_elim in Hno as [HT HL].
  unfold Main.apply_row_limit. fold u. rewrite HT, HL. cbn [negb andb].
  destruct (Main.py_gt_int limit 1000) as [over|e]; [|discriminate].
  destruct (Py.startswith u "SELECT DISTINCT"); intros Hok;
    apply Ok_inj in Hok; subst text; (split; [intros Heq|reflexivity]).
  - pose proof (top_visible "SELECT DISTINCT"
                  (py_str (if over then PInt 1000 else limit) +:+ " "
                   +:+ Py.slice_from 15 (Py.strip query)) (or_intror eq_refl)) as H.
    change ("SELECT DISTINCT" +:+ " TOP " +:+ ?t) with ("SELECT DISTINCT TOP " +:+ t) in H.
    rewrite Heq in H. fold u in H. congruence.
  - pose proof (top_visible "SELECT"
                  (py_str (if over then PInt 1000 else limit) +:+ " "
                   +:+ Py.slice_from 6 (Py.strip query)) (or_introl eq_refl)) as H.
    change ("SELECT" +:+ " TOP " +:+ ?t) with ("SELECT TOP " +:+ t) in H.
    rewrite Heq in H. fold u in H. congruence.
Qed.

(** ** Effects *)

Lemma new_events_append (w : world) (tail : list db_event) (n : nat) :
  new_events w (mk_world (db_log w ++ tail) n) = tail.
Proof. unfold new_events. cbn. apply drop_app_length. Qed.

Section Effects.

Variable E : env.

(** A run of [execute_query] leaves the clock alone and puts at most its
    own statement before the database: exactly that one if the connection
    opens, none if it does not. *)
Lemma execute_query_events (query : string) (params : list pyval) (w : world) :
  exists r tail,
    Main.execute_query E query params w
    = (r, mk_world (db_log w ++ tail) (clock_reads w))
    /\ statements tail = sent E w query params.
Proof.
  unfold Main.execute_query, Main.with_connection, Main.get_connection, bind, sent.
  destruct (drv_connect E (db_log w)) as [e|].
  - eexists _, [EvConnect]. split; reflexivity.
  - unfold try_except, bind, Main.cursor_execute, Main.cursor_fetchall, emit, lift, raise.
    cbn [db_log clock_reads].
    destruct (drv_execute E (db_log w ++ [EvConnect]) query params) as [c|e]; cbn.
    + destruct (fetchall c) as [rows|e]; cbn;
        [destruct (Main.serialize_rows _ rows); cbn|];
        rewrite <- !app_assoc; eexists _, _; split; reflexivity.
    + rewrite <- !app_assoc; eexists _, _; split; reflexivity.
Qed.

(** The shape of every answer of [query_database_tool] to a [SELECT]: the
    text left by the gate is the [query] of the result and the one
    statement put before the database. *)
Lemma query_database_runs (query : string) (limit : pyval) (text : string) (w : world) :
  Py.startswith (Py.upper (Py.strip query)) "SELECT" = true ->
  Main.apply_row_limit query (Py.upper (Py.strip query)) limit = Ok text ->
  exists res w',
    Main.query_database_tool E (PStr query) limit w = (Ok (PDict res), w')
    /\ dict_get "query" res = Some (PStr text)
    /\ statements (new_events w w') = sent E w text [].
Proof.
  intros Hsel Hgate. unfold Main.query_database_tool.
  rewrite Hsel, Hgate. cbn [negb].
  unfold bind at 1, lift at 1, try_except, bind, Main.now_isoformat, ret.
  destruct (execute_query_events text [] w) as (r & tail & -> & Hst).
  destruct r as [rows|e]; cbn [db_log clock_reads];
    eexists _, _; (split; [reflexivity|]); (split; [reflexivity|]);
    now rewrite new_events_append.
Qed.

End Effects.

(** ** The query tool *)

Section QueryTool.

Variable E : env.

(** C1.  A query whose trimmed, uppercased text does not begin with
    [SELECT] is answered, for any limit, with the error message about
    [SELECT] queries and the query as it was given; the world is the one
    before the call: no connection was opened, no statement was run, the
    clock was not read. *)
Theorem C1_non_select_is_refused_untouched
    (query : string) (limit : pyval) (w : world) :
  Py.startswith (Py.upper (Py.strip query)) "SELECT" = false ->
  Main.query_database_tool E (PStr query) limit w
  = (Ok (PDict [("error", PStr "Only SELECT queries are allowed for security reasons");
                ("query", PStr query)]), w)
  /\ Py.contains "SELECT queries are allowed"
       "Only SELECT queries are allowed for security reasons" = true
  /\ new_events w w = [].
Proof.
  intros H. unfold Main.query_database_tool. rewrite H. cbn [negb].
  repeat split. unfold new_events. apply drop_all.
Qed.

(** C2, as the code has it.  Called without a [limit] argument the tool
    runs with its declared default 100, not with the cap 1000: on a
    [SELECT] without [TOP] and [LIMIT] the call is the call with
    [limit=100], the text it runs carries [TOP 100], and that text is the
    [query] of the result. *)
Theorem C2_default_limit_is_100 (query : string) (w : world) :
  let u := Py.upper (Py.strip query) in
  Py.startswith u "SELECT" = true ->
  Py.contains "TOP" u = false -> Py.contains "LIMIT" u = false ->
  Main.call_function (Main.query_database_tool_fn E) (PDict [("query", PStr query)]) w
  = Main.query_database_tool E (PStr query) (PInt 100) w
  /\ exists res w',
       Main.call_function (Main.query_database_tool_fn E)
         (PDict [("query", PStr query)]) w = (Ok (PDict res), w')
       /\ dict_get "query" res = Some (PStr (limited query 100))
       /\ statements (new_events w w') = sent E w (limited query 100) []
       /\ limited query 100
          = (if Py.startswith u "SELECT DISTINCT"
             then "SELECT DISTINCT TOP 100 " +:+ Py.slice_from 15 (Py.strip query)
             else "SELECT TOP 100 " +:+ Py.slice_from 6 (Py.strip query)).
Proof.
  intros u Hsel HT HL.
  assert (Hcall : Main.call_function (Main.query_database_tool_fn E)
                    (PDict [("query", PStr query)]) w
                  = Main.query_database_tool E (PStr query) (PInt 100) w) by reflexivity.
  split; [exact Hcall|]. rewrite Hcall.
  destruct (query_database_runs E query (PInt 100) (limited query 100) w Hsel
              (apply_row_limit_int query 100 HT HL)) as (res & w' & Hrun & Hq & Hst).
  exists res, w'. repeat split; assumption.
Qed.

(** C3, as the code has it.  For a [SELECT] without [TOP] and [LIMIT] and
    an integer limit [L], the text that is run, and returned as [query],
    is the keyword in capitals, [SELECT], or [SELECT DISTINCT] when the
    trimmed, uppercased query begins so, then [ TOP ], the number
    [min L 1000] and a space, then the trimmed query without its first 6,
    or 15, characters.  When the query is ASCII text the characters cut
    off are the keyword as it was written, so what follows the clause is
    the rest of the trimmed query unchanged, with the white space that
    followed the keyword. *)
Theorem C3_top_clause_after_keyword (query : string) (L : Z) (w : world) :
  let u := Py.upper (Py.strip query) in
  let keyword := if Py.startswith u "SELECT DISTINCT"
                 then "SELECT DISTINCT" else "SELECT" in
  let rest := Py.slice_from (String.length keyword) (Py.strip query) in
  let text := keyword +:+ " TOP " +:+ str_int (Z.min L 1000) +:+ " " +:+ rest in
  Py.startswith u "SELECT" = true ->
  Py.contains "TOP" u = false -> Py.contains "LIMIT" u = false ->
  (exists res w',
     Main.query_database_tool E (PStr query) (PInt L) w = (Ok (PDict res), w')
     /\ dict_get "query" res = Some (PStr text)
     /\ statements (new_events w w') = sent E w text [])
  /\ (Py.isascii query = true ->
      exists kw, Py.strip query = kw +:+ rest /\ Py.upper kw = keyword).
Proof.
  intros u keyword rest text Hsel HT HL.
  destruct (query_database_runs E query (PInt L) (limited query L) w Hsel
              (apply_row_limit_int query L HT HL)) as (res & w' & Hrun & Hq & Hst).
  assert (Htext : limited query L = text).
  { unfold limited, text, rest, keyword. fold u.
    now destruct (Py.startswith u "SELECT DISTINCT"). }
  rewrite Htext in Hq, Hst. split; [now exists res, w'|].
  intros Ha. exists (Py.slice_to (String.length keyword) (Py.strip query)).
  split; [symmetry; apply slice_to_from|].
  apply startswith_upper_slice; [now apply isascii_strip|].
  fold u. unfold keyword. now destruct (Py.startswith u "SELECT DISTINCT") eqn:Hd.
Qed.

(** C4, what the code does.  The gate of [main.py] looks for the letters
    [TOP] and [LIMIT] anywhere in the trimmed, uppercased query, without
    the space behind them that the test of [database.py] asks for.  A
    [SELECT] that shows either is run exactly as it was given, for any
    limit, also when the letters are part of a name; a [SELECT] that
    shows neither is never run as given: for an integer limit the text
    that is run differs from it and begins with [SELECT TOP ] or
    [SELECT DISTINCT TOP ]. *)
Theorem C4_unmodified_iff_top_or_limit_letters
    (query : string) (limit : pyval) (w : world) :
  let u := Py.upper (Py.strip query) in
  let shows := Py.contains "TOP" u || Py.contains "LIMIT" u in
  Py.startswith u "SELECT" = true ->
  (Main.apply_row_limit query u limit = Ok query <-> shows = true)
  /\ (shows = true ->
      exists res w',
        Main.query_database_tool E (PStr query) limit w = (Ok (PDict res), w')
        /\ dict_get "query" res = Some (PStr query)
        /\ statements (new_events w w') = sent E w query [])
  /\ (shows = false ->
      forall L : Z,
      exists text res w',
        Main.query_database_tool E (PStr query) (PInt L) w = (Ok (PDict res), w')
        /\ dict_get "query" res = Some (PStr text)
        /\ statements (new_events w w') = sent E w text []
        /\ text <> query
        /\ Py.startswith text "SELECT TOP "
           || Py.startswith text "SELECT DISTINCT TOP " = true).
Proof.
  intros u shows Hsel. split; [|split].
  - split.
    + intros Hsame. destruct shows eqn:Hs; [reflexivity|].
      now destruct (apply_row_limit_changes query limit query Hs Hsame).
    + apply apply_row_limit_token.
  - intros Hs.
    apply (query_database_runs E query limit query w Hsel).
    now apply apply_row_limit_token.
  - intros Hs L.
    pose proof Hs as Hs'. apply orb_false_elim in Hs' as [HT HL].
    pose proof (apply_row_limit_int query L HT HL) as Hgate.
    destruct (query_database_runs E query (PInt L) _ w Hsel Hgate)
      as (res & w' & Hrun & Hq & Hst).
    destruct (apply_row_limit_changes query (PInt L) _ Hs Hgate) as [Hne Hpre].
    exists (limited query L), res, w'. repeat split; assumption.
Qed.

(** C5, as the code has it.  On a [SELECT] without [TOP] and [LIMIT],
    with an integer limit, the [TOP] clause goes after [SELECT DISTINCT]
    exactly when the trimmed, uppercased query begins with the 15
    characters [SELECT DISTINCT], whatever follows them; for ASCII text
    that is when the first 15 characters of the trimmed query are
    [SELECT DISTINCT] up to case.  The text that is run is then
    [SELECT DISTINCT TOP n ] and the trimmed query from its 16th
    character on, and otherwise [SELECT TOP n ] and the trimmed query from
    its 7th character on. *)
Theorem C5_distinct_is_a_15_character_prefix_test
    (query : string) (L : Z) (w : world) :
  let u := Py.upper (Py.strip query) in
  let distinct := Py.startswith u "SELECT DISTINCT" in
  Py.startswith u "SELECT" = true ->
  Py.contains "TOP" u = false -> Py.contains "LIMIT" u = false ->
  (distinct = true <-> exists behind, u = "SELECT DISTINCT" +:+ behind)
  /\ (Py.isascii query = true ->
      (distinct = true
       <-> Py.upper (Py.slice_to 15 (Py.strip query)) = "SELECT DISTINCT"))
  /\ exists text res w',
       Main.query_database_tool E (PStr query) (PInt L) w = (Ok (PDict res), w')
       /\ dict_get "query" res = Some (PStr text)
       /\ statements (new_events w w') = sent E w text []
       /\ text = (if distinct
                  then "SELECT DISTINCT TOP " +:+ str_int (Z.min L 1000) +:+ " "
                       +:+ Py.slice_from 15 (Py.strip query)
                  else "SELECT TOP " +:+ str_int (Z.min L 1000) +:+ " "
                       +:+ Py.slice_from 6 (Py.strip query))
       /\ Py.startswith text "SELECT DISTINCT TOP " = distinct.
Proof.
  intros u distinct Hsel HT HL. split; [|split].
  - apply startswith_iff_append.
  - intros Ha. split.
    + apply (startswith_upper_slice (Py.strip query) "SELECT DISTINCT").
      now apply isascii_strip.
    + intros H. apply startswith_of_slice_to. unfold u.
      pose proof (isascii_strip query Ha) as Hs.
      rewrite slice_to_ascii, upper_ascii in H
        by (try apply isascii_slice_to; exact Hs).
      rewrite upper_ascii by exact Hs.
      now rewrite <- bytewise_upper_slice_to.
  - destruct (query_database_runs E query (PInt L) (limited query L) w Hsel
                (apply_row_limit_int query L HT HL)) as (res & w' & Hrun & Hq & Hst).
    exists (limited query L), res, w'. repeat split; try assumption.
    unfold limited. fold u. fold distinct. now destruct distinct.
Qed.

End QueryTool.

Lemma C1_witness :
  Main.query_database_tool example_env (PStr "DROP TABLE t") (PInt 100) idle
  = (Ok (PDict [("error", PStr "Only SELECT queries are allowed for security reasons");
                ("query", PStr "DROP TABLE t")]), idle)
  /\ Py.contains "SELECT queries are allowed"
       "Only SELECT queries are allowed for security reasons" = true
  /\ new_events idle idle = [].
Proof.
  apply (C1_non_select_is_refused_untouched example_env "DROP TABLE t" (PInt 100) idle).
  reflexivity.
Defined.

Lemma C2_counterexample :
  statements_of (Main.call_function (Main.query_database_tool_fn example_env)
                   (PDict [("query", PStr "SELECT DISTINCT x FROM t")]))
  = [("SELECT DISTINCT TOP 100  x FROM t", [])]
  /\ ~ In ("SELECT DISTINCT TOP 1000 x FROM t", [])
         (statements_of (Main.call_function (Main.query_database_tool_fn example_env)
                           (PDict [("query", PStr "SELECT DISTINCT x FROM t")]))).
Proof.
  split; [reflexivity|]. vm_compute. intros [H|[]]. discriminate H.
Qed.

Lemma C2_witness :
  exists res w',
    Main.call_function (Main.query_database_tool_fn example_env)
      (PDict [("query", PStr "SELECT DISTINCT x FROM t")]) idle = (Ok (PDict res), w')
    /\ dict_get "query" res = Some (PStr "SELECT DISTINCT TOP 100  x FROM t")
    /\ statements (new_events idle w') = [("SELECT DISTINCT TOP 100  x FROM t", [])].
Proof.
  destruct (C2_default_limit_is_100 example_env "SELECT DISTINCT x FROM t" idle
              eq_refl eq_refl eq_refl) as (_ & res & w' & Hrun & Hq & Hst & _).
  exists res, w'. repeat split; assumption.
Defined.

Lemma C3_counterexample :
  statements_of (Main.query_database_tool example_env (PStr "SELECT * FROM t") (PInt 10))
  = [("SELECT TOP 10  * FROM t", [])]
  /\ ~ In ("SELECT TOP 10 * FROM t", [])
         (statements_of (Main.query_database_tool example_env
                           (PStr "SELECT * FROM t") (PInt 10))).
Proof.
  split; [reflexivity|]. vm_compute. intros [H|[]]. discriminate H.
Qed.

Lemma C3_witness :
  (exists res w',
     Main.query_database_tool example_env (PStr "select * From t") (PInt 5000) idle
     = (Ok (PDict res), w')
     /\ dict_get "query" res = Some (PStr "SELECT TOP 1000  * From t")
     /\ statements (new_events idle w') = [("SELECT TOP 1000  * From t", [])])
  /\ exists kw, "select * From t" = kw +:+ " * From t" /\ Py.upper kw = "SELECT".
Proof.
  destruct (C3_top_clause_after_keyword example_env "select * From t" 5000 idle
              eq_refl eq_refl eq_refl) as [Hrun Hascii].
  split; [exact Hrun|exact (Hascii eq_refl)].
Defined.

(** A table named [laptops]: the query has no [TOP ] and no [LIMIT ]
    token, the tool runs it without a row limit, and the gate of
    [database.py] gives the same query its [TOP] clause. *)
Lemma C4_laptops_escape_the_row_limit :
  let u := Py.upper (Py.strip "SELECT * FROM laptops") in
  Py.contains "TOP " u = false /\ Py.contains "LIMIT " u = false
  /\ statements_of (Main.query_database_tool example_env
                      (PStr "SELECT * FROM laptops") (PInt 100))
     = [("SELECT * FROM laptops", [])]
  /\ Database.select_text (Database.mk_executor 1000 false)
       "SELECT * FROM laptops" (Some 100)
     = Ok "SELECT TOP 100  * FROM laptops".
Proof. repeat split. Qed.

Lemma C4_witness :
  Main.apply_row_limit "SELECT * FROM laptops"
    (Py.upper (Py.strip "SELECT * FROM laptops")) (PInt 100)
  = Ok "SELECT * FROM laptops"
  /\ exists res w',
       Main.query_database_tool example_env (PStr "SELECT * FROM laptops") (PInt 100) idle
       = (Ok (PDict res), w')
       /\ dict_get "query" res = Some (PStr "SELECT * FROM laptops")
       /\ statements (new_events idle w') = [("SELECT * FROM laptops", [])].
Proof.
  destruct (C4_unmodified_iff_top_or_limit_letters example_env
              "SELECT * FROM laptops" (PInt 100) idle eq_refl) as (Hiff & Hrun & _).
  split; [now apply Hiff|]. now apply Hrun.
Defined.

Lemma C5_counterexample :
  let u := Py.upper (Py.strip "SELECT DISTINCTIVE FROM t") in
  Py.startswith u "SELECT DISTINCT" = true
  /\ statements_of (Main.query_database_tool example_env
                      (PStr "SELECT DISTINCTIVE FROM t") (PInt 100))
     = [("SELECT DISTINCT TOP 100 IVE FROM t", [])]
  /\ Py.startswith "SELECT DISTINCT TOP 100 IVE FROM t" "SELECT TOP" = false.
Proof. repeat split. Qed.

Lemma C5_witness :
  Py.upper (Py.slice_to 15 (Py.strip "select distinct x from t")) = "SELECT DISTINCT"
  /\ exists res w',
       Main.query_database_tool example_env (PStr "select distinct x from t") (PInt 7) idle
       = (Ok (PDict res), w')
       /\ dict_get "query" res = Some (PStr "SELECT DISTINCT TOP 7  x from t")
       /\ statements (new_events idle w') = [("SELECT DISTINCT TOP 7  x from t", [])].
Proof.
  destruct (C5_distinct_is_a_15_character_prefix_test example_env
              "select distinct x from t" 7 idle eq_refl eq_refl eq_refl)
    as (_ & Hiff & text & res & w' & Hrun & Hq & Hst & -> & _).
  split; [now apply (Hiff eq_refl)|].
  exists res, w'. repeat split; assumption.
Defined.

(** The gates on text beyond ASCII, which [strip] and [upper] treat as
    Python does.  A no-break space before the keyword is trimmed: the
    query is a [SELECT], [main.py] cuts the keyword off the trimmed text
    and [database.py] cuts six characters off the text as given.  The
    ligature [U+FB06] becomes [ST] in capitals: with it in [DISTINCT] the
    word is still found, the 15 characters cut off reach past the keyword
    and the space behind it is lost; and a table named with it before
    [op] shows the letters [TOP], so the query is run without a row
    limit. *)
Lemma gates_beyond_ascii :
  let nbsp := Py.encode 160 in
  let st := Py.encode 64262 in
  Py.strip (nbsp +:+ "SELECT 1") = "SELECT 1"
  /\ statements_of (Main.query_database_tool example_env
                      (PStr (nbsp +:+ "SELECT 1")) (PInt 100))
     = [("SELECT TOP 100  1", [])]
  /\ Database.select_text writer (nbsp +:+ "SELECT 1") None
     = Ok "SELECT TOP 1000 T 1"
  /\ fst (Database.execute_non_query ok_driver writer (nbsp +:+ "DELETE FROM t") [] [])
     = Ok 3
  /\ Py.upper (Py.strip ("select di" +:+ st +:+ "inct x from t"))
     = "SELECT DISTINCT X FROM T"
  /\ statements_of (Main.query_database_tool example_env
                      (PStr ("select di" +:+ st +:+ "inct x from t")) (PInt 10))
     = [("SELECT DISTINCT TOP 10 x from t", [])]
  /\ statements_of (Main.query_database_tool example_env
                      (PStr ("SELECT * FROM " +:+ st +:+ "op")) (PInt 100))
     = [("SELECT * FROM " +:+ st +:+ "op", [])].
Proof. repeat split; vm_compute; reflexivity. Qed.

(** ** The row serializers *)

(** What the serializer of [database.py] stores, case by case. *)
Lemma database_serialize_value_cases (value : pyval) :
  match value with
  | PDateTime d => Database.serialize_value value = PStr (isoformat d)
  | PBytes b =>
      match bytes_decode_utf8 b with
      | Some s => Database.serialize_value value = PStr s
      | None => Database.serialize_value value
                = PStr ("<binary data: " +:+ str_int (Z.of_nat (length b)) +:+ " bytes>")
      end
  | _ => Database.serialize_value value = value
  end.
Proof.
  destruct value; try reflexivity.
  cbn. now destruct (bytes_decode_utf8 b).
Qed.

(** The serializer of [main.py] has no case for bytes. *)
Lemma main_serialize_value_bytes (b : list byte) :
  Main.serialize_value (PBytes b) = PBytes b.
Proof. reflexivity. Qed.

(** C6, at four bytes that are no UTF-8.  The serializer on the path of
    the tools, in [main.py], stores the bytes as they are where the one in
    [database.py] stores the placeholder; the row then reaches
    [json.dumps], which raises, and the dispatcher answers the call with
    [isError]. *)
Theorem C6_main_serializer_keeps_bytes :
  bytes_decode_utf8 undecodable = None
  /\ Database.serialize_value (PBytes undecodable) = PStr "<binary data: 4 bytes>"
  /\ Main.serialize_value (PBytes undecodable) = PBytes undecodable
  /\ Main.serialize_row ["n"; "blob"] 0 [PInt 1; PBytes undecodable] []
     = Ok [("n", PInt 1); ("blob", PBytes undecodable)]
  /\ (exists w',
        Main.query_database_tool example_env (PStr "SELECT n, blob FROM t") (PInt 100) idle
        = (Ok (PDict [("success", PBool true);
                      ("results", PList [PDict [("n", PInt 1);
                                                ("blob", PBytes undecodable)]]);
                      ("row_count", PInt 1);
                      ("query", PStr "SELECT TOP 100  n, blob FROM t");
                      ("timestamp", PStr "2024-01-02T03:04:05")]), w'))
  /\ json_dumps (PDict [("blob", PBytes undecodable)])
     = Raise (TypeError "Object of type bytes is not JSON serializable")
  /\ (exists w',
        Main.mcp_handler example_env call_select_blob idle
        = (Ok (Main.rpc_result
                 (Main.tool_content
                    (error_text "Object of type bytes is not JSON serializable") true)
                 (PInt 8)), w')).
Proof.
  repeat split; [eexists; reflexivity|].
  eexists. vm_compute. reflexivity.
Qed.

(** ** The dispatcher *)

Lemma json_dumps_error (message : string) :
  json_dumps (PDict [("error", PStr message)]) = Ok (error_text message).
Proof. reflexivity. Qed.

Section Dispatcher.

Variable E : env.

(** The dispatcher returns a response for every request object: no
    exception leaves it. *)
Lemma mcp_handler_returns (request : gmap string pyval) (w : world) :
  exists response w', Main.mcp_handler E request w = (Ok response, w').
Proof.
  unfold Main.mcp_handler, try_except.
  match goal with
  | |- context [ match ?body w with _ => _ end ] => destruct (body w) as [[v|e] w']
  end; cbn; eauto.
Qed.

(** C7.  A [tools/call] request for a registered tool whose call raises
    [e] is answered with a response that has a [result] and no [error]
    member, carries the request's [id], and whose result has [isError]
    true and, as its one content text, the JSON object that holds
    [str(e)] under [error]; the world is the one the call left. *)
Theorem C7_raising_tool_gives_isError
    (request : gmap string pyval) (params : list (string * pyval))
    (name : string) (t : Main.tool) (e : exn) (w w' : world) :
  request !! "method" = Some (PStr "tools/call") ->
  request !! "params" = Some (PDict params) ->
  dict_get "name" params = Some (PStr name) ->
  dict_get name (Main.MCP_TOOLS E) = Some t ->
  Main.call_function (Main.function t)
    (match dict_get "arguments" params with Some a => a | None => PDict [] end) w
  = (Raise e, w') ->
  exists members,
    Main.mcp_handler E request w = (Ok (PDict members), w')
    /\ dict_get "jsonrpc" members = Some (PStr "2.0")
    /\ dict_get "error" members = None
    /\ dict_get "id" members = Some (Main.request_get request "id" (PInt 1))
    /\ dict_get "result" members
       = Some (PDict [("content",
                       PList [PDict [("type", PStr "text");
                                     ("text", PStr (error_text (Main.str_exn E e)))]]);
                      ("isError", PBool true)]).
Proof.
  intros Hm Hp Hn Ht Hcall.
  unfold Main.mcp_handler, Main.request_get. rewrite Hm, Hp.
  cbn [Main.eq_str String.eqb Ascii.eqb Bool.eqb].
  unfold try_except at 1, bind at 1, lift at 1.
  cbn [Main.py_get]. rewrite Hn.
  unfold bind at 1, lift at 1. unfold bind at 1, lift at 1.
  cbn [Main.registry_lookup]. rewrite Ht.
  unfold Main.run_tool, try_except, bind at 1. rewrite Hcall.
  rewrite json_dumps_error. cbn.
  eexists. split; [reflexivity|]. repeat split.
Qed.

(** C10.  Two request objects that agree on every member but [jsonrpc]
    get the same response and leave the same world, for the same driver
    and clock. *)
Theorem C10_jsonrpc_member_is_not_read (r1 r2 : gmap string pyval) (w : world) :
  delete "jsonrpc" r1 = delete "jsonrpc" r2 ->
  Main.mcp_handler E r1 w = Main.mcp_handler E r2 w.
Proof.
  intros Hsame.
  assert (Hget : forall k d, k <> "jsonrpc" ->
                 Main.request_get r1 k d = Main.request_get r2 k d).
  { intros k d Hk. unfold Main.request_get.
    rewrite <- (lookup_delete_ne r1 "jsonrpc" k) by congruence.
    rewrite <- (lookup_delete_ne r2 "jsonrpc" k) by congruence.
    now rewrite Hsame. }
  unfold Main.mcp_handler.
  rewrite (Hget "id"), (Hget "method"), (Hget "params") by discriminate.
  reflexivity.
Qed.

End Dispatcher.

(** ** Stored procedures and failure results *)

Section Handlers.

Variable E : env.

(** What the [try] of a handler does around one [execute_query]: the
    statement is the only one, whatever the result is built from. *)
Lemma handler_with_one_query {A} (query : string) (params : list pyval)
    (k : list (list (string * pyval)) -> M A) (h : exn -> M A) (w : world) :
  (forall rows w1, db_log (snd (k rows w1)) = db_log w1) ->
  (forall e w1, db_log (snd (h e w1)) = db_log w1) ->
  statements (new_events w
                (snd (try_except (bind (Main.execute_query E query params) k) h w)))
  = sent E w query params.
Proof.
  intros Hk Hh. unfold try_except, bind.
  destruct (execute_query_events E query params w) as (r & tail & -> & Hst).
  pose (w1 := mk_world (db_log w ++ tail) (clock_reads w)).
  assert (Hlog : forall w2 : world, db_log w2 = db_log w1 ->
                 statements (new_events w w2) = sent E w query params).
  { intros w2 H2. unfold new_events. rewrite H2. unfold w1. cbn [db_log].
    now rewrite drop_app_length. }
  fold w1.
  destruct r as [rows|e].
  - specialize (Hk rows w1). destruct (k rows w1) as [[v|e] w2].
    + now apply Hlog.
    + apply Hlog. rewrite Hh. exact Hk.
  - apply Hlog, Hh.
Qed.

(** C8.  With a non-empty mapping, one that [if parameters:] takes for
    true, the procedure tool puts before the
    database the one statement [EXEC name @k1 = ?, @k2 = ?, ...], the
    names in the order of the mapping, with the values of the mapping in
    that order; without parameters, or with an empty mapping, the one
    statement [EXEC name] with no values.  Nothing in the tool looks at
    the kind of statement. *)
Theorem C8_stored_procedure_statement
    (procedure_name : string) (mapping : list (string * pyval)) (w : world) :
  let run parameters :=
    statements (new_events w
      (snd (Main.execute_stored_procedure_tool E (PStr procedure_name) parameters w))) in
  (truthy (PDict mapping) = true ->
   run (PDict mapping)
   = sent E w ("EXEC " +:+ procedure_name +:+ " "
               +:+ Py.join ", " (map (fun kv => "@" +:+ fst kv +:+ " = ?") mapping))
            (map snd mapping))
  /\ run PNone = sent E w ("EXEC " +:+ procedure_name) []
  /\ run (PDict []) = sent E w ("EXEC " +:+ procedure_name) [].
Proof.
  intros run. unfold run, Main.execute_stored_procedure_tool.
  split; [intros Hne|split].
  - destruct mapping as [|kv rest]; [discriminate|].
    cbn [truthy Main.py_items].
    unfold bind at 2, lift at 1. cbn [Main.exec_statement].
    apply handler_with_one_query; reflexivity.
  - cbn [truthy]. apply handler_with_one_query; reflexivity.
  - cbn [truthy]. apply handler_with_one_query; reflexivity.
Qed.

(** The failure result on the [except] path of the query tool has all
    three members. *)
Lemma query_database_failure_result
    (query : string) (limit : pyval) (text : string) (e : exn) (w w1 : world) :
  Py.startswith (Py.upper (Py.strip query)) "SELECT" = true ->
  Main.apply_row_limit query (Py.upper (Py.strip query)) limit = Ok text ->
  Main.execute_query E text [] w = (Raise e, w1) ->
  exists ts w',
    Main.query_database_tool E (PStr query) limit w
    = (Ok (PDict [("success", PBool false);
                  ("error", PStr (Main.str_exn E e));
                  ("query", PStr text);
                  ("timestamp", PStr ts)]), w').
Proof.
  intros Hsel Hgate Hrun. unfold Main.query_database_tool.
  rewrite Hsel, Hgate. cbn [negb].
  unfold bind at 1, lift at 1, try_except, bind at 1. rewrite Hrun.
  cbn. eauto.
Qed.









End Handlers.

(** ** The theorems at concrete calls *)

Lemma C7_witness :
  exists members,
    Main.mcp_handler example_env call_without_query idle = (Ok (PDict members), idle)
    /\ dict_get "jsonrpc" members = Some (PStr "2.0")
    /\ dict_get "error" members = None
    /\ dict_get "id" members = Some (PInt 7)
    /\ dict_get "result" members
       = Some (PDict
                 [("content",
                   PList [PDict [("type", PStr "text");
                                 ("text",
                                  PStr (error_text
                                          "query_database_tool() missing 1 required positional argument: 'query'"))]]);
                  ("isError", PBool true)]).
Proof.
  apply (C7_raising_tool_gives_isError example_env call_without_query
           [("name", PStr "query_database"); ("arguments", PDict [])]
           "query_database"
           (Main.mk_tool (Main.query_database_tool_fn example_env)
              "Execute a SQL query against the database."
              (Main.object_schema
                 [("query", Main.property "string" "SQL SELECT query to execute");
                  ("limit", PDict [("type", PStr "integer");
                                   ("description", PStr "Maximum rows to return");
                                   ("default", PInt 100)])]
                 ["query"]))
           (TypeError "query_database_tool() missing 1 required positional argument: 'query'")
           idle idle); reflexivity.
Defined.

Lemma C8_witness :
  statements_of (Main.execute_stored_procedure_tool example_env (PStr "sp_report")
                   (PDict [("year", PInt 2024); ("region", PStr "EU")]))
  = [("EXEC sp_report @year = ?, @region = ?", [PInt 2024; PStr "EU"])].
Proof.
  apply (C8_stored_procedure_statement example_env "sp_report"
           [("year", PInt 2024); ("region", PStr "EU")] idle).
  reflexivity.
Defined.



Lemma C10_witness :
  Main.mcp_handler example_env call_without_query idle
  = Main.mcp_handler example_env call_without_version idle.
Proof.
  apply (C10_jsonrpc_member_is_not_read example_env
           call_without_query call_without_version idle).
  vm_compute. reflexivity.
Defined.

(** * Further properties *)

(** ** Row dictionaries *)

Lemma dict_get_set_same {A} (k : string) (v : A) (d : list (string * A)) :
  dict_get k (dict_set k v d) = Some v.
Proof.
  induction d as [|[k' v'] d IH]; cbn.
  - now rewrite String.eqb_refl.
  - destruct (String.eqb k k') eqn:Hk; cbn; rewrite Hk; [reflexivity|exact IH].
Qed.

Lemma dict_get_set_other {A} (k k' : string) (v : A) (d : list (string * A)) :
  k <> k' -> dict_get k (dict_set k' v d) = dict_get k d.
Proof.
  intros Hne. induction d as [|[k2 v2] d IH]; cbn.
  - destruct (String.eqb_spec k k'); [contradiction|reflexivity].
  - destruct (String.eqb_spec k' k2) as [->|Hk2]; cbn.
    + destruct (String.eqb_spec k k2); [contradiction|reflexivity].
    + destruct (String.eqb_spec k k2); [reflexivity|exact IH].
Qed.

Lemma dict_set_fresh {A} (k : string) (v : A) (d : list (string * A)) :
  ~ In k (map fst d) -> dict_set k v d = d ++ [(k, v)].
Proof.
  induction d as [|[k' v'] d IH]; cbn; [reflexivity|].
  intros Hn. destruct (String.eqb_spec k k') as [->|Hk].
  - exfalso. apply Hn. now left.
  - rewrite IH; [reflexivity|]. intros H. apply Hn. now right.
Qed.

Lemma dict_set_keys {A} (k : string) (v : A) (d : list (string * A)) :
  map fst (dict_set k v d)
  = if dict_has k d then map fst d else map fst d ++ [k].
Proof.
  unfold dict_has. induction d as [|[k' v'] d IH]; cbn; [reflexivity|].
  destruct (String.eqb_spec k k') as [->|Hk]; cbn; [reflexivity|].
  rewrite IH. now destruct (dict_get k d).
Qed.

Lemma dict_has_In {A} (k : string) (d : list (string * A)) :
  dict_has k d = true <-> In k (map fst d).
Proof.
  unfold dict_has. induction d as [|[k' v'] d IH]; cbn; [easy|].
  destruct (String.eqb_spec k k') as [->|Hk].
  - split; auto.
  - rewrite IH. split; [auto|]. intros [H|H]; [congruence|exact H].
Qed.

Lemma dict_set_NoDup {A} (k : string) (v : A) (d : list (string * A)) :
  NoDup (map fst d) -> NoDup (map fst (dict_set k v d)).
Proof.
  intros Hd. rewrite dict_set_keys. destruct (dict_has k d) eqn:Hh; [exact Hd|].
  apply NoDup_app. split; [exact Hd|].
  split; [|apply NoDup_singleton].
  intros x Hx Hin. apply list_elem_of_singleton in Hin as ->.
  apply list_elem_of_In, dict_has_In in Hx. congruence.
Qed.

(** What [serialize_row] leaves alone: a key that is no column of the
    values still to come. *)
Lemma serialize_row_untouched (columns : list string) (c : string) (row : list pyval) :
  forall (i : nat) (acc d : list (string * pyval)),
  Main.serialize_row columns i row acc = Ok d ->
  (forall j, (j < length row)%nat -> nth_error columns (i + j) <> Some c) ->
  dict_get c d = dict_get c acc.
Proof.
  induction row as [|v rest IH]; intros i acc d Hrun Hno; cbn in Hrun.
  - now apply Ok_inj in Hrun as <-.
  - destruct (nth_error columns i) as [c0|] eqn:Hc0; [|discriminate].
    rewrite (IH _ _ _ Hrun).
    + apply dict_get_set_other. intros ->.
      apply (Hno 0%nat); [cbn; lia|]. now rewrite Nat.add_0_r.
    + intros j Hj. replace (S i + j)%nat with (i + S j)%nat by lia.
      apply Hno. cbn. lia.
Qed.

Lemma serialize_row_keys (columns : list string) (row : list pyval) :
  forall (i : nat) (acc d : list (string * pyval)),
  Main.serialize_row columns i row acc = Ok d ->
  NoDup (map fst acc) ->
  NoDup (map fst d) /\ (length d <= length acc + length row)%nat.
Proof.
  induction row as [|v rest IH]; intros i acc d Hrun Hacc; cbn in Hrun.
  - apply Ok_inj in Hrun as <-. split; [exact Hacc|lia].
  - destruct (nth_error columns i) as [c0|]; [|discriminate].
    destruct (IH _ _ _ Hrun (dict_set_NoDup c0 _ acc Hacc)) as [Hd Hlen].
    split; [exact Hd|].
    assert (length (dict_set c0 (Main.serialize_value v) acc) <= S (length acc))%nat.
    { rewrite <- !(length_map fst), dict_set_keys.
      destruct (dict_has c0 acc); rewrite ?length_app; cbn; lia. }
    cbn. lia.
Qed.

Lemma serialize_row_last (columns : list string) (c : string) (row : list pyval) :
  forall (i : nat) (acc d : list (string * pyval)) (j : nat) (v : pyval),
  Main.serialize_row columns i row acc = Ok d ->
  nth_error row j = Some v ->
  nth_error columns (i + j) = Some c ->
  (forall j', (j < j' < length row)%nat -> nth_error columns (i + j') <> Some c) ->
  dict_get c d = Some (Main.serialize_value v).
Proof.
  induction row as [|v0 rest IH]; intros i acc d j v Hrun Hv Hc Hlater.
  - now destruct j.
  - cbn in Hrun. destruct (nth_error columns i) as [c0|] eqn:Hc0; [|discriminate].
    destruct j as [|j]; cbn in Hv.
    + apply Some_inj in Hv as ->. rewrite Nat.add_0_r, Hc0 in Hc.
      apply Some_inj in Hc as ->.
      rewrite (serialize_row_untouched _ c _ _ _ _ Hrun).
      * apply dict_get_set_same.
      * intros j Hj. replace (S i + j)%nat with (i + S j)%nat by lia.
        apply Hlater. cbn. lia.
    + apply (IH _ _ _ j v Hrun Hv).
      * now replace (S i + j)%nat with (i + S j)%nat by lia.
      * intros j' Hj'. replace (S i + j')%nat with (i + S j')%nat by lia.
        apply Hlater. cbn. lia.
Qed.

Lemma serialize_row_bounds (columns : list string) (row : list pyval) :
  forall (i : nat) (acc : list (string * pyval)),
  ((i + length row <= length columns)%nat ->
   exists d, Main.serialize_row columns i row acc = Ok d)
  /\ ((length columns < i + length row)%nat -> row <> [] ->
      Main.serialize_row columns i row acc = Raise (IndexError "list index out of range")).
Proof.
  induction row as [|v rest IH]; intros i acc; cbn [length Main.serialize_row].
  - split; [eauto|]. now intros _ [].
  - destruct (nth_error columns i) as [c0|] eqn:Hc0.
    + destruct (IH (S i) (dict_set c0 (Main.serialize_value v) acc)) as [Hok Hbad].
      split; [intros H; apply Hok; lia|].
      intros H _. apply Hbad; [lia|].
      intros ->. assert (i < length columns)%nat.
      { apply nth_error_Some. congruence. }
      cbn in H. lia.
    + apply nth_error_None in Hc0. split; [lia|reflexivity].
Qed.

Lemma nth_error_is_lookup {A} (l : list A) (i : nat) : nth_error l i = l !! i.
Proof. revert i. induction l as [|x l IH]; intros [|i]; cbn; auto. Qed.

Lemma serialize_row_zip (columns : list string) (row : list pyval) :
  NoDup columns ->
  forall (i : nat) (acc : list (string * pyval)),
  map fst acc = take i columns ->
  (i + length row <= length columns)%nat ->
  Main.serialize_row columns i row acc
  = Ok (acc ++ combine (take (length row) (drop i columns))
                       (map Main.serialize_value row)).
Proof.
  intros Hnd. induction row as [|v rest IH]; intros i acc Hacc Hlen; cbn.
  - now rewrite app_nil_r.
  - cbn in Hlen.
    destruct (nth_error columns i) as [c0|] eqn:Hc0;
      [|apply nth_error_None in Hc0; lia].
    assert (Hlk : columns !! i = Some c0) by now rewrite <- nth_error_is_lookup.
    rewrite dict_set_fresh.
    + rewrite IH.
      * rewrite (drop_S _ _ _ Hlk). cbn. now rewrite <- app_assoc.
      * rewrite map_app, Hacc. cbn. now rewrite (take_S_r _ _ _ Hlk).
      * lia.
    + rewrite Hacc. intros Hin. apply list_elem_of_In, list_elem_of_lookup in Hin as [k Hk].
      apply lookup_take_Some in Hk as [Hk Hki].
      pose proof (NoDup_lookup _ _ _ _ Hnd Hk Hlk). lia.
Qed.

(** X1.  The row loop of [DatabaseManager.execute_query] succeeds exactly
    when the row has no more values than there are column names; the
    dictionary it builds has no key twice and at most one member per
    value, and a longer row ends the loop with [IndexError]. *)
Theorem row_dict_needs_a_column_per_value (columns : list string) (row : list pyval) :
  match Main.serialize_row columns 0 row [] with
  | Ok d => (length row <= length columns)%nat
            /\ NoDup (map fst d) /\ (length d <= length row)%nat
  | Raise e => e = IndexError "list index out of range"
               /\ (length columns < length row)%nat
  end.
Proof.
  destruct (serialize_row_bounds columns row 0 []) as [Hok Hbad].
  destruct (Nat.le_gt_cases (length row) (length columns)) as [Hle|Hgt].
  - destruct (Hok Hle) as [d Hd]. rewrite Hd.
    destruct (serialize_row_keys columns row 0 [] d Hd NoDup_nil_2) as [Hnd Hlen].
    now repeat split.
  - rewrite Hbad; [now split|exact Hgt|].
    intros ->. cbn in Hgt. lia.
Qed.

(** X2.  When the driver reports the same column name more than once, the
    row dictionary keeps, under that name, the value of the last such
    column: the value at position [j] is what the dictionary holds for
    its column name when no later value of the row has that name. *)
Theorem row_dict_last_column_wins
    (columns : list string) (row : list pyval) (d : list (string * pyval))
    (j : nat) (c : string) (v : pyval) :
  Main.serialize_row columns 0 row [] = Ok d ->
  nth_error row j = Some v ->
  nth_error columns j = Some c ->
  (forall j', (j < j' < length row)%nat -> nth_error columns j' <> Some c) ->
  dict_get c d = Some (Main.serialize_value v).
Proof.
  intros Hrun Hv Hc Hlater.
  exact (serialize_row_last columns c row 0 [] d j v Hrun Hv Hc Hlater).
Qed.

Lemma row_dict_zips_distinct_columns_aux (columns : list string) (row : list pyval) :
  NoDup columns ->
  (length row <= length columns)%nat ->
  Main.serialize_row columns 0 row []
  = Ok (combine (take (length row) columns) (map Main.serialize_value row)).
Proof.
  intros Hnd Hlen.
  now rewrite (serialize_row_zip columns row Hnd 0 [] eq_refl Hlen).
Qed.

Lemma row_dict_last_column_wins_witness :
  dict_get "n" [("n", PStr "2024-01-02")] = Some (PStr "2024-01-02").
Proof.
  apply (row_dict_last_column_wins ["n"; "n"]
           [PInt 1; PDateTime (mk_datetime 2024 1 2 None)]
           [("n", PStr "2024-01-02")] 1 "n" (PDateTime (mk_datetime 2024 1 2 None)));
    try reflexivity.
  intros j' Hj'. cbn in Hj'. lia.
Defined.

(** ** [DatabaseManager.execute_query] *)

Section ExecuteQuery.

Variable E : env.

Lemma serialize_rows_raises
    (columns : list string) (fetched : list (list pyval)) (e : exn) :
  Main.serialize_rows columns fetched = Raise e ->
  e = IndexError "list index out of range"
  /\ Exists (fun row => (length columns < length row)%nat) fetched.
Proof.
  induction fetched as [|row rest IH]; cbn; [discriminate|].
  destruct (Main.serialize_row columns 0 row []) as [d|e1] eqn:Hrow.
  - destruct (Main.serialize_rows columns rest) as [ds|e1]; [discriminate|].
    intros [= <-]. destruct (IH eq_refl) as [-> Hex]. split; [reflexivity|].
    now apply Exists_cons_tl.
  - intros [= <-].
    destruct (serialize_row_bounds columns row 0 []) as [Hok Hbad].
    destruct (Nat.le_gt_cases (length row) (length columns)) as [Hle|Hgt].
    + destruct (Hok Hle) as (d & Hd). congruence.
    + assert (Hne : row <> []) by (intros ->; cbn in Hgt; lia).
      rewrite (Hbad Hgt Hne) in Hrow. injection Hrow as <-.
      split; [reflexivity|]. now apply Exists_cons_hd.
Qed.

(** X3.  An error of the connection attempt, of the statement, of the fetch
    or of the row loop reaches the caller of [execute_query] as an
    [HTTPException] with status 400 whose detail names it.  When the
    connection does not open the detail is [Database connection failed: ]
    and the driver's error; otherwise it is [Query execution failed: ] and
    the error of the first step that failed: the driver's error of
    [cursor.execute], else that of [fetchall], else the [IndexError] of a
    row with more values than the cursor has columns.  ([conn.cursor()]
    and the exit of the [with] block are taken not to raise.) *)
Theorem execute_query_raises_only_http_400
    (query : string) (params : list pyval) (w w' : world) (e : exn) :
  Main.execute_query E query params w = (Raise e, w') ->
  match drv_connect E (db_log w) with
  | Some e0 =>
      e = HTTPException 400 ("Database connection failed: " +:+ Main.str_exn E e0)
  | None =>
      exists e0,
        e = HTTPException 400 ("Query execution failed: " +:+ Main.str_exn E e0)
        /\ match drv_execute E (db_log w ++ [EvConnect]) query params with
           | Raise e1 => e0 = e1
           | Ok c =>
               match fetchall c with
               | Raise e1 => e0 = e1
               | Ok fetched =>
                   e0 = IndexError "list index out of range"
                   /\ Exists (fun row =>
                                (length (default [] (description c)) < length row)%nat)
                             fetched
               end
           end
  end.
Proof.
  unfold Main.execute_query, Main.with_connection, Main.get_connection, bind.
  destruct (drv_connect E (db_log w)) as [e0|].
  - now intros [= <- <-].
  - unfold try_except, bind, Main.cursor_execute, Main.cursor_fetchall, emit, lift, raise.
    cbn [db_log clock_reads].
    destruct (drv_execute E (db_log w ++ [EvConnect]) query params) as [c|e1]; cbn.
    + destruct (fetchall c) as [rows|e1]; cbn.
      * destruct (Main.serialize_rows _ rows) as [ds|e1] eqn:Hrows; cbn;
          [discriminate|].
        intros [= <- <-]. exists e1. split; [reflexivity|].
        apply serialize_rows_raises in Hrows.
        now destruct (description c).
      * intros [= <- <-]. now exists e1.
    + intros [= <- <-]. now exists e1.
Qed.

(** X4.  One run of [execute_query] never reads the clock and adds these
    events, in this order: the connection attempt alone when the
    connection does not open; the connection, the statement with the values
    given and the unclean exit of the [with] block when the statement
    fails; and when the statement succeeds the connection, the statement,
    the fetch and the exit, clean exactly when rows are returned.  So the
    rows are fetched if and only if the statement succeeded, and rows are
    returned only if the connection, the statement and the fetch all
    succeeded. *)
Theorem execute_query_events_in_order
    (query : string) (params : list pyval) (w : world) :
  match Main.execute_query E query params w with
  | (r, w') =>
      clock_reads w' = clock_reads w
      /\ new_events w w'
         = match drv_connect E (db_log w) with
           | Some _ => [EvConnect]
           | None =>
               match drv_execute E (db_log w ++ [EvConnect]) query params with
               | Raise _ => [EvConnect; EvExecute query params; EvExit false]
               | Ok _ => [EvConnect; EvExecute query params; EvFetchAll;
                          EvExit match r with Ok _ => true | Raise _ => false end]
               end
           end
      /\ match r with
         | Raise _ => True
         | Ok _ =>
             drv_connect E (db_log w) = None
             /\ exists c fetched,
                  drv_execute E (db_log w ++ [EvConnect]) query params = Ok c
                  /\ fetchall c = Ok fetched
         end
  end.
Proof.
  unfold Main.execute_query, Main.with_connection, Main.get_connection, bind.
  destruct (drv_connect E (db_log w)) as [e0|].
  - cbn. unfold new_events. cbn. rewrite drop_app_length. auto.
  - unfold try_except, bind, Main.cursor_execute, Main.cursor_fetchall, emit, lift, raise.
    cbn [db_log clock_reads].
    destruct (drv_execute E (db_log w ++ [EvConnect]) query params) as [c|e1]; cbn.
    + destruct (fetchall c) as [rows|e1] eqn:Hf; cbn;
        [destruct (Main.serialize_rows _ rows); cbn|];
        (split; [reflexivity|]); unfold new_events; cbn;
        rewrite <- !app_assoc, drop_app_length; cbn; eauto 6.
    + split; [reflexivity|]. unfold new_events; cbn.
      rewrite <- !app_assoc, drop_app_length; cbn; auto.
Qed.

Lemma serialize_rows_zip (columns : list string) (fetched : list (list pyval)) :
  NoDup columns ->
  Forall (fun row => (length row <= length columns)%nat) fetched ->
  Main.serialize_rows columns fetched
  = Ok (map (fun row => combine (take (length row) columns)
                                (map Main.serialize_value row)) fetched).
Proof.
  intros Hnd Hfit. induction Hfit as [|row rest Hrow _ IH]; cbn; [reflexivity|].
  now rewrite (row_dict_zips_distinct_columns_aux columns row Hnd Hrow), IH.
Qed.

(** X5.  When the connection opens, the statement succeeds with distinct
    column names and every fetched row fits them, [execute_query] returns
    one dictionary per fetched row, in the order fetched, each pairing the
    column names with the row's values in column order: for a date or a
    datetime the text of its [isoformat()], and every other value, a bytes
    object too, as it was fetched. *)
Theorem execute_query_returns_rows_in_order
    (query : string) (params : list pyval) (w : world)
    (c : cursor) (columns : list string) (fetched : list (list pyval)) :
  drv_connect E (db_log w) = None ->
  drv_execute E (db_log w ++ [EvConnect]) query params = Ok c ->
  description c = Some columns ->
  fetchall c = Ok fetched ->
  NoDup columns ->
  Forall (fun row => (length row <= length columns)%nat) fetched ->
  fst (Main.execute_query E query params w)
  = Ok (map (fun row =>
               combine (take (length row) columns)
                       (map (fun value => match value with
                                          | PDateTime d => PStr (isoformat d)
                                          | PNone | PBool _ | PInt _ | PStr _
                                          | PBytes _ | PList _ | PDict _ => value
                                          end) row)) fetched).
Proof.
  intros Hconn Hexec Hdesc Hfetch Hnd Hfit.
  unfold Main.execute_query, Main.with_connection, Main.get_connection, bind.
  rewrite Hconn.
  unfold try_except, bind, Main.cursor_execute, Main.cursor_fetchall, emit, lift, raise.
  cbn [db_log clock_reads]. rewrite Hexec. cbn. rewrite Hdesc, Hfetch. cbn.
  now rewrite (serialize_rows_zip columns fetched Hnd Hfit).
Qed.

End ExecuteQuery.

(** ** The other handlers *)

Section MoreHandlers.

Variable E : env.

Lemma execute_query_step (query : string) (params : list pyval) (w : world) :
  exists r tail,
    Main.execute_query E query params w
    = (r, mk_world (db_log w ++ tail) (clock_reads w))
    /\ (statements tail = [(query, params)]
        \/ statements tail = [] /\ exists e, r = Raise e).
Proof.
  unfold Main.execute_query, Main.with_connection, Main.get_connection, bind.
  destruct (drv_connect E (db_log w)) as [e|].
  - eexists _, [EvConnect]. split; [reflexivity|]. right. eauto.
  - unfold try_except, bind, Main.cursor_execute, Main.cursor_fetchall, emit, lift, raise.
    cbn [db_log clock_reads].
    destruct (drv_execute E (db_log w ++ [EvConnect]) query params) as [c|e]; cbn.
    + destruct (fetchall c) as [rows|e]; cbn;
        [destruct (Main.serialize_rows _ rows); cbn|];
        rewrite <- !app_assoc; eexists _, _; (split; [reflexivity|]); now left.
    + rewrite <- !app_assoc; eexists _, _; (split; [reflexivity|]); now left.
Qed.

Ltac run_query w :=
  match goal with
  | |- context [Main.execute_query E ?q ?p w] =>
      let r := fresh "r" in let tail := fresh "tail" in
      let Hst := fresh "Hst" in
      destruct (execute_query_step q p w) as (r & tail & -> & Hst);
      destruct r as [?|?]
  end.

Ltac finish_handler :=
  unfold bind, lift, ret, Main.now_isoformat;
  repeat match goal with
         | |- context [match ?r with Ok _ => _ | Raise _ => _ end] => destruct r
         end;
  cbn; eexists _, _; (split; [reflexivity|]); split; eauto.

(** X6.  [list_tables_tool], [describe_table_tool],
    [get_database_info_tool] and [execute_stored_procedure_tool] never
    raise, whatever their arguments and whatever the driver does: each
    returns a dictionary with a boolean [success] and a [timestamp]
    text. *)
Theorem four_handlers_never_raise
    (table_name procedure_name parameters : pyval) (w : world) :
  let answers (m : M pyval) :=
    exists members w',
      m w = (Ok (PDict members), w')
      /\ (exists b, dict_get "success" members = Some (PBool b))
      /\ (exists ts, dict_get "timestamp" members = Some (PStr ts)) in
  answers (Main.list_tables_tool E)
  /\ answers (Main.describe_table_tool E table_name)
  /\ answers (Main.get_database_info_tool E)
  /\ answers (Main.execute_stored_procedure_tool E procedure_name parameters).
Proof.
  intros answers. unfold answers. repeat split.
  - unfold Main.list_tables_tool, try_except. unfold bind at 1.
    destruct (Main.execute_query E _ _ w) as [[rows|e] w1]; finish_handler.
  - unfold Main.describe_table_tool, try_except. unfold bind at 1.
    destruct (Main.execute_query E _ _ w) as [[rows|e] w1]; finish_handler.
  - unfold Main.get_database_info_tool, try_except. unfold bind at 1.
    destruct (Main.execute_query E _ _ w) as [[r1|e] w1]; [|finish_handler].
    unfold bind at 1.
    destruct (Main.execute_query E _ _ w1) as [[r2|e] w2]; [|finish_handler].
    unfold bind at 1.
    destruct (Main.execute_query E _ _ w2) as [[r3|e] w3]; [|finish_handler].
    unfold bind at 1.
    destruct (Main.execute_query E _ _ w3) as [[r4|e] w4]; finish_handler.
  - unfold Main.execute_stored_procedure_tool, try_except.
    destruct (truthy parameters).
    + unfold bind at 1. unfold bind at 1, lift at 1.
      destruct (Main.py_items parameters) as [items|e]; [|finish_handler].
      cbn [Main.exec_statement].
      destruct (Main.execute_query E _ _ w) as [[rows|e] w1]; finish_handler.
    + unfold bind at 1.
      destruct (Main.execute_query E _ _ w) as [[rows|e] w1]; finish_handler.
Qed.

(** X7.  Three errors leave [query_database_tool] instead of becoming a
    failure result, all before anything is done to the database or the
    clock, since the lines that raise them stand before the [try].  A
    query that is [None], a boolean, an integer, a date, a list or a
    dictionary has no [strip]: [AttributeError].  A bytes query has
    [strip] and [upper], and its [startswith] refuses the text [SELECT]:
    [TypeError].  On a [SELECT] that is to be limited, a limit that is
    [None], text, bytes, a date, a list or a dictionary cannot be compared
    with 1000: [TypeError]. *)
Theorem query_database_tool_raises_before_database
    (query limit : pyval) (w : world) :
  match query with
  | PStr q =>
      let u := Py.upper (Py.strip q) in
      Py.startswith u "SELECT" && negb (Py.contains "LIMIT" u)
      && negb (Py.contains "TOP" u) = true ->
      match limit with
      | PInt _ | PBool _ => True
      | PNone | PStr _ | PBytes _ | PDateTime _ | PList _ | PDict _ =>
          Main.query_database_tool E query limit w
          = (Raise (TypeError ("'>' not supported between instances of '"
                               +:+ type_name limit +:+ "' and 'int'")), w)
      end
  | PBytes _ =>
      Main.query_database_tool E query limit w
      = (Raise (TypeError
                  "startswith first arg must be bytes or a tuple of bytes, not str"), w)
  | PNone | PBool _ | PInt _ | PDateTime _ | PList _ | PDict _ =>
      Main.query_database_tool E query limit w
      = (Raise (AttributeError ("'" +:+ type_name query
                                +:+ "' object has no attribute 'strip'")), w)
  end.
Proof.
  destruct query; try reflexivity.
  intros u Hu. apply andb_prop in Hu as [Hu HT]. apply andb_prop in Hu as [Hs HL].
  unfold Main.query_database_tool. fold u. rewrite Hs. cbn [negb].
  unfold Main.apply_row_limit. rewrite HL, HT. cbn [andb].
  destruct limit; try exact I; reflexivity.
Qed.

(** X8.  [describe_table_tool] puts the fixed column query before the
    database with the table name as its one bound value, whatever the
    table name is: the name never becomes part of the statement text. *)
Theorem describe_table_binds_the_name (table_name : pyval) (w : world) :
  statements (new_events w (snd (Main.describe_table_tool E table_name w)))
  = sent E w Main.columns_query [table_name].
Proof.
  unfold Main.describe_table_tool. apply handler_with_one_query; reflexivity.
Qed.

(** X9.  [describe_table_tool] makes no check that the table exists: when
    the connection opens and the column query returns no rows, the answer
    is a success with an empty [columns] list and [column_count] 0. *)
Theorem describe_table_of_unknown_table_succeeds
    (table_name : pyval) (c : cursor) (w : world) :
  drv_connect E (db_log w) = None ->
  drv_execute E (db_log w ++ [EvConnect]) Main.columns_query [table_name] = Ok c ->
  fetchall c = Ok [] ->
  fst (Main.describe_table_tool E table_name w)
  = Ok (PDict [("success", PBool true);
               ("table_name", table_name);
               ("columns", PList []);
               ("column_count", PInt 0);
               ("timestamp", PStr (isoformat (clock E (clock_reads w))))]).
Proof.
  intros Hconn Hexec Hfetch.
  unfold Main.describe_table_tool, try_except, bind, Main.execute_query,
    Main.with_connection, Main.get_connection, bind.
  rewrite Hconn.
  unfold try_except, bind, Main.cursor_execute, Main.cursor_fetchall, emit, lift.
  cbn [db_log clock_reads]. rewrite Hexec. cbn. now rewrite Hfetch.
Qed.

Lemma column_of_all (k : string) (rows : list (list (string * pyval))) :
  Forall (fun row => dict_has k row = true) rows ->
  Main.column_of k rows
  = Ok (map (fun row => default PNone (dict_get k row)) rows).
Proof.
  unfold dict_has. induction 1 as [|row rest Hrow _ IH]; cbn; [reflexivity|].
  unfold Main.row_item. destruct (dict_get k row); [|discriminate].
  now rewrite IH.
Qed.

Lemma column_of_missing (k : string) (rows : list (list (string * pyval))) :
  Exists (fun row => dict_has k row = false) rows ->
  Main.column_of k rows = Raise (KeyError k).
Proof.
  unfold dict_has. induction rows as [|row rest IH]; intros Hex.
  - inversion Hex.
  - cbn. unfold Main.row_item. destruct (dict_get k row) eqn:Hk; [|reflexivity].
    rewrite IH; [reflexivity|]. inversion Hex; subst; [|assumption].
    rewrite Hk in *. discriminate.
Qed.

(** X10.  When the table query returns rows, [list_tables_tool] answers
    with the [TABLE_NAME] of every row, in row order, and [table_count]
    is the number of rows; if some row has no [TABLE_NAME] the answer is
    the failure result whose error is the missing key in quotes. *)
Theorem list_tables_lists_every_row
    (rows : list (list (string * pyval))) (w w1 : world) :
  Main.execute_query E Main.tables_query [] w = (Ok rows, w1) ->
  (Forall (fun row => dict_has "TABLE_NAME" row = true) rows ->
   Main.list_tables_tool E w
   = (Ok (PDict [("success", PBool true);
                 ("tables", PList (map (fun row => default PNone (dict_get "TABLE_NAME" row))
                                       rows));
                 ("table_count", PInt (Z.of_nat (length rows)));
                 ("timestamp", PStr (isoformat (clock E (clock_reads w1))))]),
      mk_world (db_log w1) (S (clock_reads w1))))
  /\ (Exists (fun row => dict_has "TABLE_NAME" row = false) rows ->
      Main.list_tables_tool E w
      = (Ok (PDict [("success", PBool false);
                    ("error", PStr "'TABLE_NAME'");
                    ("timestamp", PStr (isoformat (clock E (clock_reads w1))))]),
         mk_world (db_log w1) (S (clock_reads w1)))).
Proof.
  intros Hrun. unfold Main.list_tables_tool, try_except, bind, lift.
  rewrite Hrun. split; intros H.
  - rewrite (column_of_all _ _ H). cbn.
    unfold Main.len_value. now rewrite length_map.
  - now rewrite (column_of_missing _ _ H).
Qed.

Lemma statements_app (a b : list db_event) :
  statements (a ++ b) = statements a ++ statements b.
Proof.
  induction a as [|[] a IH]; cbn; try assumption; [reflexivity|].
  now rewrite IH.
Qed.

Lemma execute_query_run (query : string) (w : world) :
  exists r tail,
    Main.execute_query E query [] w
    = (r, mk_world (db_log w ++ tail) (clock_reads w))
    /\ match r with
       | Ok _ => tail = clean_run query
       | Raise _ => failed_run query tail
       end.
Proof.
  unfold Main.execute_query, Main.with_connection, Main.get_connection, bind.
  unfold failed_run, clean_run.
  destruct (drv_connect E (db_log w)) as [e|].
  - eexists _, [EvConnect]. split; [reflexivity|]. now left.
  - unfold try_except, bind, Main.cursor_execute, Main.cursor_fetchall, emit, lift, raise.
    cbn [db_log clock_reads].
    destruct (drv_execute E (db_log w ++ [EvConnect]) query []) as [c|e]; cbn.
    + destruct (fetchall c) as [rows|e]; cbn;
        [destruct (Main.serialize_rows _ rows); cbn|];
        rewrite <- !app_assoc; eexists _, _; (split; [reflexivity|]); cbn; auto.
    + rewrite <- !app_assoc; eexists _, _; (split; [reflexivity|]); cbn; auto.
Qed.

(** X11.  [get_database_info_tool] runs its four statements in a fixed
    order, each on a connection of its own, and stops at the first run
    that fails.  The events it adds are the clean runs (connection,
    statement, fetch, clean exit) of the statements [done], followed
    either by nothing, and then [done] is all four, or by the events of
    the failed run of the next statement and nothing behind them, and
    then the answer says [success] false.  So an answer with [success]
    true means four clean runs, and after a failure no later statement
    is put before the database. *)
Theorem get_database_info_runs_a_prefix (w : world) :
  match Main.get_database_info_tool E w with
  | (r, w') =>
      exists members done failed,
        r = Ok (PDict members)
        /\ new_events w w' = flat_map clean_run done ++ failed
        /\ (done = map fst info_statements /\ failed = []
            \/ exists q later,
                 map fst info_statements = done ++ q :: later
                 /\ failed_run q failed
                 /\ dict_get "success" members = Some (PBool false))
  end.
Proof.
  unfold Main.get_database_info_tool, try_except.
  assert (Hfail : forall (e : exn) (done : list string) (q : string)
                         (later : list string) (failed : list db_event) (n : nat),
            map fst info_statements = done ++ q :: later ->
            failed_run q failed ->
            match (let* timestamp := Main.now_isoformat E in
                   ret (PDict [("success", PBool false);
                               ("error", PStr (Main.str_exn E e));
                               ("timestamp", PStr timestamp)]))
                    (mk_world (db_log w ++ flat_map clean_run done ++ failed) n) with
            | (r, w') =>
                exists members done failed,
                  r = Ok (PDict members)
                  /\ new_events w w' = flat_map clean_run done ++ failed
                  /\ (done = map fst info_statements /\ failed = []
                      \/ exists q later,
                           map fst info_statements = done ++ q :: later
                           /\ failed_run q failed
                           /\ dict_get "success" members = Some (PBool false))
            end).
  { intros e done q later failed n Hsplit Hf. cbn.
    eexists _, done, failed. split; [reflexivity|].
    rewrite new_events_append. split; [reflexivity|].
    right. now exists q, later. }
  unfold bind at 1.
  destruct (execute_query_run "SELECT @@VERSION as version" w)
    as (r1 & t1 & -> & H1).
  destruct r1 as [v1|e1].
  2:{ apply (Hfail e1 [] _ _ t1 _ eq_refl H1). }
  subst t1. unfold bind at 1.
  set (w1 := mk_world _ _).
  destruct (execute_query_run "SELECT DB_NAME() as database_name" w1)
    as (r2 & t2 & -> & H2).
  unfold w1. cbn [db_log clock_reads]. rewrite <- app_assoc.
  destruct r2 as [v2|e2].
  2:{ apply (Hfail e2 ["SELECT @@VERSION as version"%string] _ _ t2 _ eq_refl H2). }
  subst t2. unfold bind at 1.
  set (w2 := mk_world _ _).
  destruct (execute_query_run "SELECT @@SERVERNAME as server_name" w2)
    as (r3 & t3 & -> & H3).
  unfold w2. cbn [db_log clock_reads]. rewrite <- !app_assoc.
  destruct r3 as [v3|e3].
  2:{ apply (Hfail e3 ["SELECT @@VERSION as version"%string;
                       "SELECT DB_NAME() as database_name"%string] _ _ t3 _ eq_refl H3). }
  subst t3. unfold bind at 1.
  set (w3 := mk_world _ _).
  destruct (execute_query_run Main.tables_query w3) as (r4 & t4 & -> & H4).
  unfold w3. cbn [db_log clock_reads]. rewrite <- !app_assoc.
  destruct r4 as [v4|e4].
  2:{ apply (Hfail e4 ["SELECT @@VERSION as version"%string;
                       "SELECT DB_NAME() as database_name"%string;
                       "SELECT @@SERVERNAME as server_name"%string] _ _ t4 _ eq_refl H4). }
  subst t4.
  unfold bind, lift, ret, Main.now_isoformat.
  destruct (Main.first_or_unknown "database_name" v2);
    [destruct (Main.first_or_unknown "server_name" v3);
     [destruct (Main.first_or_unknown "version" v1)|]|];
    cbn; eexists _, (map fst info_statements), [];
    (split; [reflexivity|]); rewrite new_events_append;
    (split; [reflexivity|]); now left.
Qed.

(** On a driver that fails at the third statement: two clean runs, the
    failed run, and the table query is never put before the database. *)
Lemma get_database_info_stops_at_the_failure :
  Main.get_database_info_tool flaky_env idle
  = (Ok (PDict [("success", PBool false);
                ("error", PStr "400: Query execution failed: permission denied");
                ("timestamp", PStr "2024-01-02T03:04:05")]),
     mk_world (clean_run "SELECT @@VERSION as version"
               ++ clean_run "SELECT DB_NAME() as database_name"
               ++ [EvConnect; EvExecute "SELECT @@SERVERNAME as server_name" [];
                   EvExit false]) 1).
Proof. vm_compute. reflexivity. Qed.

(** X12.  When every connection opens and the three one-row queries return
    no rows, [get_database_info_tool] still succeeds and puts the text
    [Unknown] for the database name, the server name and the version. *)
Theorem get_database_info_substitutes_unknown (w : world) :
  (forall log, drv_connect E log = None) ->
  (forall log q p, exists c, drv_execute E log q p = Ok c /\ fetchall c = Ok []) ->
  exists ts,
    fst (Main.get_database_info_tool E w)
    = Ok (PDict [("success", PBool true);
                 ("database_name", PStr "Unknown");
                 ("server_name", PStr "Unknown");
                 ("version", PStr "Unknown");
                 ("table_count", PInt 0);
                 ("timestamp", PStr ts)]).
Proof.
  intros Hconn Hexec.
  assert (Hq : forall q w0, exists w1,
             Main.execute_query E q [] w0 = (Ok [], w1)
             /\ clock_reads w1 = clock_reads w0).
  { intros q w0.
    unfold Main.execute_query, Main.with_connection, Main.get_connection, bind.
    rewrite Hconn.
    unfold try_except, bind, Main.cursor_execute, Main.cursor_fetchall, emit, lift.
    cbn [db_log clock_reads].
    destruct (Hexec (db_log w0 ++ [EvConnect]) q []) as (c & -> & Hf).
    cbn. rewrite Hf. cbn. eauto. }
  unfold Main.get_database_info_tool, try_except.
  unfold bind at 1. destruct (Hq "SELECT @@VERSION as version" w) as (w1 & -> & _).
  unfold bind at 1.
  destruct (Hq "SELECT DB_NAME() as database_name" w1) as (w2 & -> & _).
  unfold bind at 1.
  destruct (Hq "SELECT @@SERVERNAME as server_name" w2) as (w3 & -> & _).
  unfold bind at 1. destruct (Hq Main.tables_query w3) as (w4 & -> & _).
  cbn. eauto.
Qed.

End MoreHandlers.

(** ** More of the dispatcher *)

Lemma dict_get_In {A} (k : string) (d : list (string * A)) :
  (exists v, dict_get k d = Some v) <-> In k (map fst d).
Proof.
  rewrite <- dict_has_In. unfold dict_has.
  destruct (dict_get k d); split; eauto; try discriminate.
  now intros [v Hv].
Qed.

Lemma first_unexpected_none (params : list (string * option pyval))
    (kwargs : list (string * pyval)) :
  Main.first_unexpected params kwargs = None
  <-> forall k, In k (map fst kwargs) -> In k (map fst params).
Proof.
  induction kwargs as [|[k v] rest IH]; cbn.
  - split; [intros _ k []|reflexivity].
  - destruct (dict_has k params) eqn:Hk.
    + rewrite IH. apply dict_has_In in Hk. split.
      * intros H k' [<-|Hin]; auto.
      * intros H k' Hin. apply H. now right.
    + split; [discriminate|]. intros H.
      assert (Hin : In k (map fst params)) by (apply H; now left).
      apply dict_has_In in Hin. congruence.
Qed.

Lemma missing_params_none (params : list (string * option pyval))
    (kwargs : list (string * pyval)) :
  Main.missing_params params kwargs = []
  <-> forall p, In p (required_params params) -> In p (map fst kwargs).
Proof.
  unfold required_params. induction params as [|[p [d|]] rest IH]; cbn.
  - split; [intros _ p []|reflexivity].
  - destruct (dict_get p kwargs); exact IH.
  - destruct (dict_get p kwargs) eqn:Hp.
    + rewrite IH. split.
      * intros H p' [<-|Hin]; [apply dict_get_In; eauto|auto].
      * intros H p' Hin. apply H. now right.
    + split; [discriminate|]. intros H.
      assert (Hin : In p (map fst kwargs)) by (apply H; now left).
      apply dict_get_In in Hin as [v Hv]. congruence.
Qed.

Lemma bound_values_length (params : list (string * option pyval))
    (kwargs : list (string * pyval)) :
  length (Main.bound_values params kwargs) = length params.
Proof. induction params as [|[p d] rest IH]; cbn; [reflexivity|]. now rewrite IH. Qed.

Section MoreDispatcher.

Variable E : env.

Ltac envelope :=
  cbn; eexists _, _, _; split; [reflexivity|];
  first [ left; reflexivity
        | right; split; [reflexivity|]; eexists _, _; reflexivity ].

(** X13.  Every response of [mcp_handler], for any request object, is an
    object with three members: [jsonrpc] with the text [2.0], then either
    [result] or [error], the latter an object of an integer [code] and a
    [message] text, then [id] with the [id] of the request, or 1 when the
    request has none. *)
Theorem every_response_is_an_envelope (request : gmap string pyval) (w : world) :
  exists key body w',
    Main.mcp_handler E request w
    = (Ok (PDict [("jsonrpc", PStr "2.0"); (key, body);
                  ("id", Main.request_get request "id" (PInt 1))]), w')
    /\ (key = "result"
        \/ key = "error"
           /\ exists code message,
                body = PDict [("code", PInt code); ("message", PStr message)]).
Proof.
  unfold Main.mcp_handler, try_except.
  destruct (Main.eq_str _ "tools/list"); [envelope|].
  destruct (Main.eq_str _ "tools/call").
  - unfold bind at 1, lift at 1.
    destruct (Main.py_get _ "name" _) as [tool_name|e]; [|envelope].
    unfold bind at 1, lift at 1.
    destruct (Main.py_get _ "arguments" _) as [arguments|e]; [|envelope].
    unfold bind at 1, lift at 1.
    destruct (Main.registry_lookup E tool_name) as [[t|]|e]; [|envelope..].
    unfold Main.run_tool, try_except. unfold bind at 1.
    destruct (Main.call_function _ arguments w) as [[v|e] w1].
    + unfold bind, lift. destruct (json_dumps v) as [text|e]; [envelope|].
      rewrite json_dumps_error. envelope.
    + unfold bind, lift. rewrite json_dumps_error. envelope.
  - destruct (Main.eq_str _ "initialize"); envelope.
Qed.

(** X14.  Only a [tools/call] request can reach the database or the clock:
    for every request whose [method] is not the text [tools/call] the
    world after [mcp_handler] is the world before. *)
Theorem only_tools_call_touches_the_world (request : gmap string pyval) (w : world) :
  Main.eq_str (Main.request_get request "method" PNone) "tools/call" = false ->
  snd (Main.mcp_handler E request w) = w.
Proof.
  intros Hm. unfold Main.mcp_handler, try_except. rewrite Hm.
  destruct (Main.eq_str _ "tools/list"); [reflexivity|].
  now destruct (Main.eq_str _ "initialize").
Qed.

(** X15.  A request whose [method] is none of [tools/list], [tools/call] and
    [initialize] is answered with the error code -32601 and the message
    [Method '...' not found] around [str] of the method, which is [None]
    when the request has no method. *)
Theorem unknown_method_is_error_32601 (request : gmap string pyval) (w : world) :
  let method := Main.request_get request "method" PNone in
  Main.eq_str method "tools/list" = false ->
  Main.eq_str method "tools/call" = false ->
  Main.eq_str method "initialize" = false ->
  Main.mcp_handler E request w
  = (Ok (PDict [("jsonrpc", PStr "2.0");
                ("error", PDict [("code", PInt (-32601));
                                 ("message", PStr ("Method '" +:+ py_str method
                                                   +:+ "' not found"))]);
                ("id", Main.request_get request "id" (PInt 1))]), w).
Proof.
  intros method H1 H2 H3. unfold Main.mcp_handler, try_except.
  fold method. now rewrite H1, H2, H3.
Qed.

(** X16.  A [tools/call] whose [params] object names no registered tool
    is answered with the error code -1 and the message
    [Tool '...' not found] around [str] of the name, and nothing is done
    to the database.  That is so when the name is a text that is no key
    of the registry, and always when it is [None] (also when [params] has
    no [name]), a boolean, an integer, bytes or a date, none of which is
    equal to a key. *)
Theorem unknown_tool_is_error_minus_1
    (request : gmap string pyval) (params : list (string * pyval)) (w : world) :
  let name := match dict_get "name" params with Some n => n | None => PNone end in
  request !! "method" = Some (PStr "tools/call") ->
  Main.request_get request "params" (PDict []) = PDict params ->
  match name with
  | PStr s => dict_get s (Main.MCP_TOOLS E) = None
  | PNone | PBool _ | PInt _ | PBytes _ | PDateTime _ => True
  | PList _ | PDict _ => False
  end ->
  Main.mcp_handler E request w
  = (Ok (PDict [("jsonrpc", PStr "2.0");
                ("error", PDict [("code", PInt (-1));
                                 ("message", PStr ("Tool '" +:+ py_str name
                                                   +:+ "' not found"))]);
                ("id", Main.request_get request "id" (PInt 1))]), w).
Proof.
  intros name Hm Hp Hname. unfold Main.mcp_handler, try_except.
  assert (Hmeth : Main.request_get request "method" PNone = PStr "tools/call")
    by (unfold Main.request_get; now rewrite Hm).
  rewrite Hmeth. cbn [Main.eq_str String.eqb Ascii.eqb Bool.eqb].
  rewrite Hp. unfold bind, lift. cbn [Main.py_get]. fold name.
  assert (Hlook : Main.registry_lookup E name = Ok None).
  { destruct name; try reflexivity; try contradiction.
    unfold Main.registry_lookup. now rewrite Hname. }
  rewrite Hlook. reflexivity.
Qed.

(** X17.  A [tools/call] whose [params] is not an object, or whose tool
    name is a list or an object, never reaches a tool: the answer is the
    error code -1 with the text of the [AttributeError] or [TypeError]
    that reading it raised, and nothing is done to the database. *)
Theorem malformed_call_is_error_minus_1
    (request : gmap string pyval) (w : world) :
  request !! "method" = Some (PStr "tools/call") ->
  match Main.request_get request "params" (PDict []) with
  | PDict params =>
      match match dict_get "name" params with Some n => n | None => PNone end with
      | (PList _ | PDict _) as name =>
          Main.mcp_handler E request w
          = (Ok (Main.rpc_error (-1) ("unhashable type: '" +:+ type_name name +:+ "'")
                   (Main.request_get request "id" (PInt 1))), w)
      | _ => True
      end
  | params =>
      Main.mcp_handler E request w
      = (Ok (Main.rpc_error (-1)
               ("'" +:+ type_name params +:+ "' object has no attribute 'get'")
               (Main.request_get request "id" (PInt 1))), w)
  end.
Proof.
  intros Hm. unfold Main.mcp_handler, try_except.
  assert (Hmeth : Main.request_get request "method" PNone = PStr "tools/call")
    by (unfold Main.request_get; now rewrite Hm).
  rewrite Hmeth. cbn [Main.eq_str String.eqb Ascii.eqb Bool.eqb].
  destruct (Main.request_get request "params" (PDict [])) as [| | | | | | |params];
    try reflexivity.
  unfold bind, lift. cbn [Main.py_get].
  destruct (dict_get "name" params) as [[]|]; cbn; try exact I; reflexivity.
Qed.

(** Each registered tool's schema names the parameters of its function
    and requires those without a default. *)
Lemma registry_schemas_agree (name : string) (t : Main.tool) :
  dict_get name (Main.MCP_TOOLS E) = Some t ->
  schema_properties (Main.parameters t) = map fst (Main.fn_params (Main.function t))
  /\ schema_required (Main.parameters t)
     = required_params (Main.fn_params (Main.function t)).
Proof.
  cbn.
  repeat match goal with
         | |- context [String.eqb name ?k] => destruct (String.eqb name k)
         end;
    intros [= <-] || intros [=]; split; reflexivity.
Qed.

(** X18.  The binding of [tool_function( **arguments)] accepts exactly the
    argument objects that the tool's input schema describes by name: for
    a registered tool the call binds, with one value per parameter, if
    and only if every key of the arguments is a property of the schema
    and every name of its [required] list is a key. *)
Theorem arguments_bind_iff_schema_names_fit
    (name : string) (t : Main.tool) (kwargs : list (string * pyval)) :
  dict_get name (Main.MCP_TOOLS E) = Some t ->
  (exists args, Main.bind_arguments (Main.function t) kwargs = Ok args
                /\ length args = length (Main.fn_params (Main.function t)))
  <-> (forall k, In k (map fst kwargs) -> In k (schema_properties (Main.parameters t)))
      /\ (forall k, In k (schema_required (Main.parameters t)) -> In k (map fst kwargs)).
Proof.
  intros Ht. destruct (registry_schemas_agree name t Ht) as [-> ->].
  rewrite <- first_unexpected_none, <- missing_params_none.
  unfold Main.bind_arguments.
  destruct (Main.first_unexpected _ kwargs) as [k|].
  - split; [intros (args & Hb & _)|intros [Hb _]]; discriminate Hb.
  - destruct (Main.missing_params _ kwargs) as [|m ms].
    + split; [intros _; split; reflexivity|]. intros _. eexists. split; [reflexivity|].
      apply bound_values_length.
    + split; [intros (args & Hb & _)|intros [_ Hb]]; discriminate Hb.
Qed.

(** X19.  [tools/list] and [tools/call] agree on what is registered: a text
    is the name of a listed tool if and only if a call by that name finds
    a tool. *)
Theorem listed_tools_are_the_callable_ones (name : string) :
  In (PStr name) (listed_names (Main.tool_listing E))
  <-> exists t, Main.registry_lookup E (PStr name) = Ok (Some t).
Proof.
  change (listed_names (Main.tool_listing E))
    with (map PStr (map fst (Main.MCP_TOOLS E))).
  rewrite in_map_iff. cbn [Main.registry_lookup]. split.
  - intros (k & Hk & Hin). apply dict_get_In in Hin as [t Ht].
    exists t. congruence.
  - intros [t Ht]. exists name. split; [reflexivity|].
    apply dict_get_In. exists t. congruence.
Qed.

(** X20.  When the tool's function returns a value, the answer to
    [tools/call] is a [result] whose one content text is the value as
    JSON, with [isError] false; if the value cannot be written as JSON the
    answer is still a [result], with [isError] true and the encoder's
    message under [error]. *)
Theorem returning_tool_gives_json_text
    (request : gmap string pyval) (params : list (string * pyval))
    (name : string) (t : Main.tool) (v : pyval) (w w' : world) :
  request !! "method" = Some (PStr "tools/call") ->
  request !! "params" = Some (PDict params) ->
  dict_get "name" params = Some (PStr name) ->
  dict_get name (Main.MCP_TOOLS E) = Some t ->
  Main.call_function (Main.function t)
    (match dict_get "arguments" params with Some a => a | None => PDict [] end) w
  = (Ok v, w') ->
  Main.mcp_handler E request w
  = (Ok (Main.rpc_result
           match json_dumps v with
           | Ok text => Main.tool_content text false
           | Raise e => Main.tool_content (error_text (Main.str_exn E e)) true
           end
           (Main.request_get request "id" (PInt 1))), w').
Proof.
  intros Hm Hp Hn Ht Hcall.
  unfold Main.mcp_handler, Main.request_get. rewrite Hm, Hp.
  cbn [Main.eq_str String.eqb Ascii.eqb Bool.eqb].
  unfold try_except at 1, bind at 1, lift at 1.
  cbn [Main.py_get]. rewrite Hn.
  unfold bind at 1, lift at 1. unfold bind at 1, lift at 1.
  cbn [Main.registry_lookup]. rewrite Ht.
  unfold Main.run_tool, try_except, bind at 1. rewrite Hcall.
  unfold bind, lift. destruct (json_dumps v) as [text|e]; [reflexivity|].
  now rewrite json_dumps_error.
Qed.

End MoreDispatcher.

(** ** [database.py]: the executor *)

Lemma bytewise_upper_append (a b : string) :
  Bytewise.upper (a +:+ b) = Bytewise.upper a +:+ Bytewise.upper b.
Proof.
  induction a as [|c a IH]; cbn; [reflexivity|].
  now rewrite !append_cons, <- IH.
Qed.

Lemma bytewise_rstrip_is_a_prefix (s : string) :
  exists ws, s = Bytewise.rstrip s +:+ ws.
Proof.
  induction s as [|c s [ws IH]]; [now exists EmptyString|].
  cbn [Bytewise.rstrip].
  destruct (Bytewise.isspace c && Py.is_empty (Bytewise.rstrip s)).
  - now exists (String c s).
  - exists ws. now rewrite append_cons, <- IH.
Qed.

(** Behind an ASCII prefix, what begins a character is the rest. *)
Lemma slice_from_behind (p x : string) :
  Py.isascii p = true -> Py.starts_with_cont x = false ->
  Py.slice_from (String.length p) (p +:+ x) = x.
Proof.
  intros Hp Hx. unfold Py.slice_from.
  rewrite chars_app, chars_ascii by assumption.
  replace (String.length p) with (length (Bytewise.singles p))
    by (clear; induction p as [|c p IH]; cbn; congruence).
  now rewrite drop_app_length, cat_chars.
Qed.

Lemma append_not_behind (p r : string) : p <> EmptyString -> r <> p +:+ r.
Proof.
  intros Hp Heq. apply (f_equal String.length) in Heq.
  rewrite length_append in Heq. destruct p; [easy|]. cbn in Heq. lia.
Qed.

(** The number after [TOP]: the limit, unless it is absent, zero or above
    [max_rows]. *)
Lemma effective_limit_cases (X : Database.executor) (limit : option Z) :
  Z.min (Database.limit_or limit (Database.max_rows X)) (Database.max_rows X)
  = match limit with
    | Some l => if (l =? 0) || (Database.max_rows X <? l)
                then Database.max_rows X else l
    | None => Database.max_rows X
    end.
Proof.
  unfold Database.limit_or. destruct limit as [l|]; [|lia].
  destruct (Z.eqb_spec l 0); cbn; [lia|].
  destruct (Z.ltb_spec (Database.max_rows X) l); lia.
Qed.

(** X21.  [execute_select_query] refuses a text that, trimmed and in
    capitals, does not begin with [SELECT]: it raises [ValueError] before
    a connection is asked for.  For a [SELECT] that shows neither [TOP ]
    nor [LIMIT ] the text that is run is [SELECT TOP n ], or
    [SELECT DISTINCT TOP n ], and the query as given, untrimmed, without
    its first 6, or 15, characters, where [n] is the limit, or [max_rows]
    when the limit is absent, zero or larger.  When the query is ASCII
    text that begins with no white space, the characters cut off are the
    keyword as it was written, so the clause stands right behind the
    keyword and the rest of the query is kept. *)
Theorem database_select_text
    (X : Database.executor) (query : string) (limit : option Z) :
  let u := Py.upper (Py.strip query) in
  let n := match limit with
           | Some l => if (l =? 0) || (Database.max_rows X <? l)
                       then Database.max_rows X else l
           | None => Database.max_rows X
           end in
  let keyword := if Py.startswith u "SELECT DISTINCT"
                 then "SELECT DISTINCT" else "SELECT" in
  let rest := Py.slice_from (String.length keyword) query in
  (Py.startswith u "SELECT" = false ->
   Database.select_text X query limit
   = Raise (ValueError "Only SELECT queries are allowed"))
  /\ (Py.startswith u "SELECT" = true ->
      Py.contains "TOP " u = false -> Py.contains "LIMIT " u = false ->
      Database.select_text X query limit
      = Ok (keyword +:+ " TOP " +:+ str_int n +:+ " " +:+ rest)
      /\ (Py.isascii query = true -> Py.lstrip query = query ->
          exists kw, query = kw +:+ rest /\ Py.upper kw = keyword)).
Proof.
  intros u n keyword rest. unfold Database.select_text. fold u. split.
  - now intros ->.
  - intros Hs HT HL. rewrite Hs, HT, HL. cbn [negb andb].
    rewrite effective_limit_cases. fold n. split.
    + unfold rest, keyword. now destruct (Py.startswith u "SELECT DISTINCT").
    + intros Ha Hl.
      assert (Hq : Py.startswith (Py.upper query) keyword = true).
      { rewrite upper_ascii by exact Ha.
        destruct (bytewise_rstrip_is_a_prefix query) as [ws Hws].
        rewrite Hws, bytewise_upper_append. apply startswith_append.
        assert (Hu : u = Bytewise.upper (Bytewise.rstrip query)).
        { unfold u. rewrite upper_ascii by now apply isascii_strip.
          rewrite strip_ascii by exact Ha. unfold Bytewise.strip.
          rewrite <- lstrip_ascii by exact Ha. now rewrite Hl. }
        rewrite <- Hu. unfold keyword.
        now destruct (Py.startswith u "SELECT DISTINCT") eqn:Hd. }
      exists (Py.slice_to (String.length keyword) query).
      split; [symmetry; apply slice_to_from|].
      now apply startswith_upper_slice.
Qed.

(** X22.  For a [SELECT], [execute_select_query] runs the text exactly as
    given if and only if the trimmed text in capitals contains [TOP ] or
    [LIMIT ], each with the space behind it; otherwise the text that is
    run begins with [SELECT TOP ] or [SELECT DISTINCT TOP ] and is not
    the text given. *)
Theorem database_select_unmodified_iff_token
    (X : Database.executor) (query : string) (limit : option Z) :
  let u := Py.upper (Py.strip query) in
  Py.startswith u "SELECT" = true ->
  (Database.select_text X query limit = Ok query
   <-> Py.contains "TOP " u || Py.contains "LIMIT " u = true)
  /\ exists text,
       Database.select_text X query limit = Ok text
       /\ (Py.contains "TOP " u || Py.contains "LIMIT " u = false ->
           text <> query
           /\ Py.startswith text "SELECT TOP "
              || Py.startswith text "SELECT DISTINCT TOP " = true).
Proof.
  intros u Hs.
  assert (Hchanged : forall text,
            Py.contains "TOP " u || Py.contains "LIMIT " u = false ->
            Database.select_text X query limit = Ok text ->
            text <> query
            /\ Py.startswith text "SELECT TOP "
               || Py.startswith text "SELECT DISTINCT TOP " = true).
  { intros text Hno. unfold Database.select_text. fold u. rewrite Hs.
    apply orb_false_elim in Hno as [-> ->]. cbn [negb andb].
    destruct (Py.startswith u "SELECT DISTINCT") eqn:Hd; intros Hok;
      apply Ok_inj in Hok; subst text; (split; [|reflexivity]); intros Heq.
    - pose proof (slice_from_behind "SELECT DISTINCT"
                    (" TOP " +:+ str_int (Z.min (Database.limit_or limit (Database.max_rows X))
                                            (Database.max_rows X))
                     +:+ " " +:+ Py.slice_from 15 query) eq_refl eq_refl) as Hr.
      change ("SELECT DISTINCT" +:+ " TOP " +:+ ?t)
        with ("SELECT DISTINCT TOP " +:+ t) in Hr.
      rewrite Heq in Hr. cbn [String.length] in Hr.
      revert Hr. rewrite <- !append_assoc.
      apply append_not_behind. rewrite !append_cons. discriminate.
    - pose proof (slice_from_behind "SELECT"
                    (" TOP " +:+ str_int (Z.min (Database.limit_or limit (Database.max_rows X))
                                            (Database.max_rows X))
                     +:+ " " +:+ Py.slice_from 6 query) eq_refl eq_refl) as Hr.
      change ("SELECT" +:+ " TOP " +:+ ?t) with ("SELECT TOP " +:+ t) in Hr.
      rewrite Heq in Hr. cbn [String.length] in Hr.
      revert Hr. rewrite <- !append_assoc.
      apply append_not_behind. rewrite !append_cons. discriminate. }
  split.
  - split.
    + intros Hsame.
      destruct (Py.contains "TOP " u || Py.contains "LIMIT " u) eqn:Hno;
        [reflexivity|].
      now destruct (Hchanged query eq_refl Hsame).
    + intros Hyes. unfold Database.select_text. fold u. rewrite Hs. cbn [negb].
      destruct (Py.contains "TOP " u), (Py.contains "LIMIT " u); try reflexivity.
      discriminate.
  - destruct (Database.select_text X query limit) as [text|e] eqn:Hrun.
    + exists text. split; [reflexivity|]. intros Hno. now apply Hchanged.
    + exfalso. revert Hrun. unfold Database.select_text. fold u. rewrite Hs.
      cbn [negb]. now destruct (negb _ && negb _), (Py.startswith u "SELECT DISTINCT").
Qed.

Section Executor.

Variable Drv : Database.driver.

(** X23.  [execute_non_query] refuses, with [ValueError] and before a
    connection is asked for, every statement when write operations are
    disabled, and when they are enabled every statement that does not
    begin, trimmed and in capitals, with [INSERT], [UPDATE], [DELETE],
    [EXEC] or [EXECUTE]; so it never runs a [SELECT]. *)
Theorem non_query_refusals_touch_nothing
    (X : Database.executor) (query : string) (params : list pyval)
    (log : list Database.event) :
  let u := Py.upper (Py.strip query) in
  (Database.enable_write_ops X = false ->
   Database.execute_non_query Drv X query params log
   = (Raise (ValueError "Write operations are disabled for security"), log))
  /\ (Database.enable_write_ops X = true ->
      existsb (Py.startswith u) Database.allowed_ops = false ->
      Database.execute_non_query Drv X query params log
      = (Raise (ValueError
                  "Only INSERT, UPDATE, DELETE, EXEC, EXECUTE operations are allowed"),
         log))
  /\ (Py.startswith u "SELECT" = true ->
      exists message,
        Database.execute_non_query Drv X query params log
        = (Raise (ValueError message), log)).
Proof.
  intros u. unfold Database.execute_non_query. fold u. repeat split.
  - now intros ->.
  - now intros -> ->.
  - intros Hs. destruct (Database.enable_write_ops X); [|cbn; eauto].
    assert (Hnone : existsb (Py.startswith u) Database.allowed_ops = false).
    { apply startswith_iff_append in Hs as (behind & ->). reflexivity. }
    rewrite Hnone. cbn. eauto.
Qed.

(** X24.  An allowed statement with write operations enabled, on a
    connection that opens: the statement is executed once; if it and the
    commit succeed the row count is returned and the events are execute,
    commit, close; if the statement or the commit raises, a rollback
    follows, the exception is the one raised, or the one of a failing
    rollback, and the connection is closed all the same. *)
Theorem non_query_commits_or_rolls_back
    (X : Database.executor) (query : string) (params : list pyval)
    (log : list Database.event) :
  Database.enable_write_ops X = true ->
  existsb (Py.startswith (Py.upper (Py.strip query))) Database.allowed_ops = true ->
  Database.connect Drv log = None ->
  let opened := log ++ [Database.Connect] in
  let executed := opened ++ [Database.Execute query params] in
  let after_rollback (e : exn) (before : list Database.event) :=
    (Raise (match Database.rollback Drv before with Some e' => e' | None => e end),
     before ++ [Database.Rollback; Database.Close]) in
  Database.execute_non_query Drv X query params log
  = match Database.execute Drv opened query params with
    | Raise e => after_rollback e executed
    | Ok c =>
        match Database.commit Drv executed with
        | None => (Ok (Database.cur_rowcount c),
                   executed ++ [Database.Commit; Database.Close])
        | Some e => after_rollback e (executed ++ [Database.Commit])
        end
    end.
Proof.
  intros Hen Hop Hconn opened executed after_rollback.
  unfold Database.execute_non_query. rewrite Hen, Hop. cbn [negb].
  unfold Database.get_connection. rewrite Hconn.
  unfold Database.dbind, Database.cursor_execute, Database.conn_commit,
    Database.conn_rollback, Database.dret, Database.draise.
  fold opened. fold executed. unfold after_rollback.
  destruct (Database.execute Drv opened query params) as [c|e].
  - destruct (Database.commit Drv executed) as [e|].
    + destruct (Database.rollback Drv (executed ++ [Database.Commit]));
        now rewrite <- !app_assoc.
    + now rewrite <- !app_assoc.
  - destruct (Database.rollback Drv executed); now rewrite <- !app_assoc.
Qed.

(** X25.  A run of [execute_select_query] never commits and never rolls
    back, and it closes the connection exactly when it opened one.  The
    events it adds are: none when the text is refused; the connection
    attempt alone when the connection does not open; the connection, the
    statement and the close when the statement fails, and then the
    statement's error is raised; and the connection, the statement, the
    fetch and the close when the statement succeeds.  So the rows are
    fetched if and only if the statement succeeded. *)
Theorem select_run_never_commits
    (X : Database.executor) (query : string) (params : list pyval)
    (limit : option Z) (log : list Database.event) :
  match Database.execute_select_query Drv X query params limit log with
  | (r, log') =>
      match Database.select_text X query limit with
      | Raise e => r = Raise e /\ log' = log
      | Ok text =>
          match Database.connect Drv log with
          | Some e => r = Raise e /\ log' = log ++ [Database.Connect]
          | None =>
              match Database.execute Drv (log ++ [Database.Connect]) text params with
              | Raise e =>
                  r = Raise e
                  /\ log' = log ++ [Database.Connect; Database.Execute text params;
                                    Database.Close]
              | Ok c =>
                  log' = log ++ [Database.Connect; Database.Execute text params;
                                 Database.FetchAll; Database.Close]
                  /\ match Database.cur_fetchall c with
                     | Raise e => r = Raise e
                     | Ok fetched =>
                         r = Database.serialize_rows
                               (default [] (Database.cur_description c)) fetched
                     end
              end
          end
      end
  end.
Proof.
  unfold Database.execute_select_query, Database.dbind at 1, Database.dlift at 1.
  destruct (Database.select_text X query limit) as [text|e]; [|now split].
  unfold Database.get_connection.
  destruct (Database.connect Drv log) as [e|]; [now split|].
  unfold Database.dbind, Database.cursor_execute, Database.cursor_fetchall,
    Database.dlift.
  destruct (Database.execute Drv _ text params) as [c|e]; cbn.
  - destruct (Database.cur_fetchall c) as [rows|e]; cbn.
    + destruct (Database.cur_description c); cbn;
        destruct (Database.serialize_rows _ rows); cbn;
        now rewrite <- !app_assoc.
    + now rewrite <- !app_assoc.
  - now rewrite <- !app_assoc.
Qed.

End Executor.

(** X26.  The two row serializers and [json.dumps], for a fetched value
    that is [None], a boolean, an integer, text, a date or datetime, or
    bytes.  What the serializer of [database.py] stores for it can be
    written as JSON.  What the serializer of [main.py] stores can be
    written as JSON too, except for bytes, which it stores unchanged and
    on which [json.dumps] raises [TypeError]. *)
Theorem serialized_scalars_and_json (value : pyval) :
  match value with
  | PNone | PBool _ | PInt _ | PStr _ | PDateTime _ =>
      (exists text, json_dumps (Database.serialize_value value) = Ok text)
      /\ (exists text, json_dumps (Main.serialize_value value) = Ok text)
  | PBytes _ =>
      (exists text, json_dumps (Database.serialize_value value) = Ok text)
      /\ json_dumps (Main.serialize_value value)
         = Raise (TypeError "Object of type bytes is not JSON serializable")
  | PList _ | PDict _ => True
  end.
Proof.
  destruct value as [| [] | | | b | | |]; cbn; eauto.
  split; [|reflexivity].
  destruct (bytes_decode_utf8 b); cbn; eauto.
Qed.

(** ** The further properties at concrete inputs *)

Lemma execute_query_raises_only_http_400_witness :
  exists e0,
    HTTPException 400 "Query execution failed: list index out of range"
    = HTTPException 400 ("Query execution failed: " +:+ Main.str_exn wide_row_env e0)
    /\ e0 = IndexError "list index out of range"
    /\ Exists (fun row => (1 < length row)%nat) [[PInt 1; PInt 2]].
Proof.
  apply (execute_query_raises_only_http_400 wide_row_env "SELECT n FROM t" [] idle
           (mk_world [EvConnect; EvExecute "SELECT n FROM t" []; EvFetchAll;
                      EvExit false] 0)).
  reflexivity.
Defined.

Lemma execute_query_returns_rows_in_order_witness :
  fst (Main.execute_query dated_env "SELECT n, day, blob FROM t" [] idle)
  = Ok [[("n", PInt 1); ("day", PStr "2024-01-02"); ("blob", PBytes undecodable)]].
Proof.
  apply (execute_query_returns_rows_in_order dated_env "SELECT n, day, blob FROM t" []
           idle
           (mk_cursor (Some ["n"; "day"; "blob"])
              (Ok [[PInt 1; PDateTime (mk_datetime 2024 1 2 None); PBytes undecodable]]))
           ["n"; "day"; "blob"]
           [[PInt 1; PDateTime (mk_datetime 2024 1 2 None); PBytes undecodable]]);
    try reflexivity.
  - apply (bool_decide_unpack _). vm_compute. exact I.
  - repeat constructor.
Defined.

Lemma query_database_tool_raises_before_database_witness :
  Main.query_database_tool example_env (PStr "SELECT 1") (PStr "ten") idle
  = (Raise (TypeError "'>' not supported between instances of 'str' and 'int'"), idle).
Proof.
  apply (query_database_tool_raises_before_database example_env
           (PStr "SELECT 1") (PStr "ten") idle).
  reflexivity.
Defined.

Lemma describe_table_of_unknown_table_succeeds_witness :
  fst (Main.describe_table_tool empty_env (PStr "no_such_table") idle)
  = Ok (PDict [("success", PBool true);
               ("table_name", PStr "no_such_table");
               ("columns", PList []);
               ("column_count", PInt 0);
               ("timestamp", PStr "2024-01-02T03:04:05")]).
Proof.
  apply (describe_table_of_unknown_table_succeeds empty_env (PStr "no_such_table")
           (mk_cursor (Some ["TABLE_NAME"]) (Ok [])) idle); reflexivity.
Defined.

Lemma list_tables_lists_every_row_witness :
  fst (Main.list_tables_tool tables_env idle)
  = Ok (PDict [("success", PBool true);
               ("tables", PList [PStr "orders"; PStr "users"]);
               ("table_count", PInt 2);
               ("timestamp", PStr "2024-01-02T03:04:05")])
  /\ fst (Main.list_tables_tool nameless_env idle)
     = Ok (PDict [("success", PBool false);
                  ("error", PStr "'TABLE_NAME'");
                  ("timestamp", PStr "2024-01-02T03:04:05")]).
Proof.
  split.
  - destruct (list_tables_lists_every_row tables_env
                [[("TABLE_NAME", PStr "orders")]; [("TABLE_NAME", PStr "users")]]
                idle (mk_world [EvConnect; EvExecute Main.tables_query []; EvFetchAll;
                                EvExit true] 0) eq_refl) as [Hall _].
    rewrite Hall; [reflexivity|]. repeat constructor.
  - destruct (list_tables_lists_every_row nameless_env [[("name", PStr "orders")]]
                idle (mk_world [EvConnect; EvExecute Main.tables_query []; EvFetchAll;
                                EvExit true] 0) eq_refl) as [_ Hmissing].
    rewrite Hmissing; [reflexivity|]. now constructor.
Defined.

Lemma get_database_info_substitutes_unknown_witness :
  exists ts,
    fst (Main.get_database_info_tool empty_env idle)
    = Ok (PDict [("success", PBool true);
                 ("database_name", PStr "Unknown");
                 ("server_name", PStr "Unknown");
                 ("version", PStr "Unknown");
                 ("table_count", PInt 0);
                 ("timestamp", PStr ts)]).
Proof.
  apply (get_database_info_substitutes_unknown empty_env idle).
  - reflexivity.
  - intros log q p. eexists. split; reflexivity.
Defined.

Lemma only_tools_call_touches_the_world_witness :
  snd (Main.mcp_handler example_env call_of_unknown_method idle) = idle.
Proof.
  apply (only_tools_call_touches_the_world example_env call_of_unknown_method idle).
  reflexivity.
Defined.

Lemma unknown_method_is_error_32601_witness :
  Main.mcp_handler example_env call_of_unknown_method idle
  = (Ok (PDict [("jsonrpc", PStr "2.0");
                ("error", PDict [("code", PInt (-32601));
                                 ("message", PStr "Method 'resources/list' not found")]);
                ("id", PInt 3)]), idle).
Proof.
  apply (unknown_method_is_error_32601 example_env call_of_unknown_method idle);
    reflexivity.
Defined.

Lemma unknown_tool_is_error_minus_1_witness :
  Main.mcp_handler example_env call_of_unknown_tool idle
  = (Ok (PDict [("jsonrpc", PStr "2.0");
                ("error", PDict [("code", PInt (-1));
                                 ("message", PStr "Tool 'drop_table' not found")]);
                ("id", PInt 4)]), idle)
  /\ Main.mcp_handler example_env call_without_name idle
     = (Ok (PDict [("jsonrpc", PStr "2.0");
                   ("error", PDict [("code", PInt (-1));
                                    ("message", PStr "Tool 'None' not found")]);
                   ("id", PInt 8)]), idle).
Proof.
  split.
  - apply (unknown_tool_is_error_minus_1 example_env call_of_unknown_tool
             [("name", PStr "drop_table")] idle); reflexivity.
  - apply (unknown_tool_is_error_minus_1 example_env call_without_name
             [("arguments", PDict [])] idle); reflexivity || exact I.
Defined.

Lemma malformed_call_is_error_minus_1_witness :
  Main.mcp_handler example_env call_with_list_params idle
  = (Ok (Main.rpc_error (-1) "'list' object has no attribute 'get'" (PInt 5)), idle).
Proof.
  apply (malformed_call_is_error_minus_1 example_env call_with_list_params idle).
  reflexivity.
Defined.

Lemma arguments_bind_iff_schema_names_fit_witness :
  exists args,
    Main.bind_arguments (Main.query_database_tool_fn example_env)
      [("query", PStr "SELECT 1")] = Ok args
    /\ length args = 2%nat.
Proof.
  apply (arguments_bind_iff_schema_names_fit example_env "query_database"
           (Main.mk_tool (Main.query_database_tool_fn example_env)
              "Execute a SQL query against the database."
              (Main.object_schema
                 [("query", Main.property "string" "SQL SELECT query to execute");
                  ("limit", PDict [("type", PStr "integer");
                                   ("description", PStr "Maximum rows to return");
                                   ("default", PInt 100)])]
                 ["query"]))
           [("query", PStr "SELECT 1")] eq_refl).
  split; intros k [<-|[]]; cbn; auto.
Defined.

Lemma returning_tool_gives_json_text_witness :
  exists text,
    json_dumps (PDict [("success", PBool true); ("tables", PList []);
                       ("table_count", PInt 0);
                       ("timestamp", PStr "2024-01-02T03:04:05")]) = Ok text
    /\ fst (Main.mcp_handler empty_env call_list_tables idle)
       = Ok (Main.rpc_result (Main.tool_content text false) (PInt 6)).
Proof.
  eexists. split; [reflexivity|].
  rewrite (returning_tool_gives_json_text empty_env call_list_tables
             [("name", PStr "list_tables")] "list_tables"
             (Main.mk_tool (Main.list_tables_tool_fn empty_env)
                "Get a list of all tables in the database."
                (Main.object_schema [] []))
             (PDict [("success", PBool true); ("tables", PList []);
                     ("table_count", PInt 0);
                     ("timestamp", PStr "2024-01-02T03:04:05")])
             idle
             (mk_world [EvConnect; EvExecute Main.tables_query []; EvFetchAll;
                        EvExit true] 1)
             eq_refl eq_refl eq_refl eq_refl eq_refl).
  reflexivity.
Defined.

Lemma database_select_text_witness :
  Database.select_text writer "select distinct x from t" (Some 5000)
  = Ok "SELECT DISTINCT TOP 1000  x from t"
  /\ (exists kw, "select distinct x from t" = kw +:+ " x from t"
                 /\ Py.upper kw = "SELECT DISTINCT")
  /\ Database.select_text writer "DROP TABLE t" None
     = Raise (ValueError "Only SELECT queries are allowed").
Proof.
  destruct (database_select_text writer "select distinct x from t" (Some 5000))
    as [_ Hsel].
  destruct (Hsel eq_refl eq_refl eq_refl) as [Htext Hascii].
  destruct (database_select_text writer "DROP TABLE t" None) as [Hno _].
  split; [exact Htext|split; [exact (Hascii eq_refl eq_refl)|apply (Hno eq_refl)]].
Defined.

Lemma database_select_unmodified_iff_token_witness :
  Database.select_text writer "SELECT TOP 5 * FROM t" (Some 100)
  = Ok "SELECT TOP 5 * FROM t".
Proof.
  apply (database_select_unmodified_iff_token writer "SELECT TOP 5 * FROM t"
           (Some 100) eq_refl).
  reflexivity.
Defined.

Lemma non_query_refusals_touch_nothing_witness :
  Database.execute_non_query ok_driver (Database.mk_executor 1000 false)
    "DELETE FROM t" [] []
  = (Raise (ValueError "Write operations are disabled for security"), [])
  /\ Database.execute_non_query ok_driver writer "DROP TABLE t" [] []
     = (Raise (ValueError
                 "Only INSERT, UPDATE, DELETE, EXEC, EXECUTE operations are allowed"),
        []).
Proof.
  destruct (non_query_refusals_touch_nothing ok_driver (Database.mk_executor 1000 false)
              "DELETE FROM t" [] []) as (Hoff & _ & _).
  destruct (non_query_refusals_touch_nothing ok_driver writer "DROP TABLE t" [] [])
    as (_ & Hkind & _).
  split; [apply Hoff; reflexivity|apply Hkind; reflexivity].
Defined.

Lemma non_query_commits_or_rolls_back_witness :
  Database.execute_non_query ok_driver writer "DELETE FROM t WHERE id = ?" [PInt 7] []
  = (Ok 3, [Database.Connect;
            Database.Execute "DELETE FROM t WHERE id = ?" [PInt 7];
            Database.Commit; Database.Close]).
Proof.
  apply (non_query_commits_or_rolls_back ok_driver writer
           "DELETE FROM t WHERE id = ?" [PInt 7] []); reflexivity.
Defined.
